(** * The SSL reconciliation service of [index.js], embedded in Rocq

    The service keeps one SQLite table, [ssl_records], as a local cache of
    the custom hostnames it registers at Cloudflare.  Every route handler of
    [index.js] is embedded as a computation over an explicit [World]:
    the table, the wall clock behind [CURRENT_TIMESTAMP], the remote
    authority (an oracle indexed by the number of calls made so far) and the
    console.  A JavaScript [throw] is an explicit completion, [try]/[catch]
    is a combinator, and the retry loop of [fetchCloudflareStatus] runs on
    fuel that is proved sufficient.

    Conventions of the embedding:
    - timestamps are seconds ([Z]); SQLite's [CURRENT_TIMESTAMP] text format
      sorts in the same order;
    - the JSON values received from the authority are typed: [result] of a
      create, get or patch call is an object with string [id], [hostname] and
      [status] (the remaining properties are kept opaque);
    - [req.body] is [undefined] or a JSON object whose properties, where
      present, are strings; route parameters are always present;
    - the storage engine itself does not fail;
    - a handler runs without interleaving; the detached task started by
      [POST /ssl] is a computation of its own that is scheduled later. *)

From Stdlib Require Import ZArith List String Bool Lia.
From Stdlib Require Import Sorting.Permutation Sorting.Sorted.
Import ListNotations.

Local Open Scope string_scope.
Local Open Scope Z_scope.

(** ** Rows of [ssl_records] and records of the authority *)

(** [CREATE TABLE ssl_records (id TEXT PRIMARY KEY, hostname TEXT UNIQUE,
    status TEXT, created_at TEXT DEFAULT CURRENT_TIMESTAMP,
    updated_at TEXT DEFAULT CURRENT_TIMESTAMP)] *)
Record Row : Type := mkRow {
  id : string;
  hostname : string;
  status : string;
  created_at : Z;
  updated_at : Z
}.

(** [response.data.result] of the custom-hostnames API: the properties the
    service reads, and the rest of the object as opaque text. *)
Record CustomHostname : Type := mkCustomHostname {
  result_id : string;
  result_hostname : string;
  result_status : string;
  result_rest : string
}.

(** [{ ...ssl, status: s }] *)
Definition spread_with_status (ssl : CustomHostname) (s : string) : CustomHostname :=
  mkCustomHostname (result_id ssl) (result_hostname ssl) s (result_rest ssl).

(** A thrown value: an axios error carries [response.data] when the
    authority answered; every error has a [message]. *)
Record JsError : Type := mkJsError {
  response_data : option string;
  message : string
}.

(** [err.response?.data || err.message]: the empty string is falsy. *)
Definition error_payload (err : JsError) : string :=
  match response_data err with
  | Some d => if String.eqb d "" then message err else d
  | None => message err
  end.

(** ** The table and the SQL statements of the handlers *)

Module Sql.

Definition Table : Type := list Row.

(** A row that an insert of [(i, h)] collides with: same primary key or same
    unique hostname. *)
Definition conflicts (i h : string) (r : Row) : bool :=
  String.eqb (id r) i || String.eqb (hostname r) h.

(** [INSERT OR REPLACE INTO ssl_records (id, hostname, status, updated_at)
    VALUES (?, ?, ?, CURRENT_TIMESTAMP)].  REPLACE deletes every row that
    violates the primary key or the unique index, then inserts the new row;
    [created_at] is not listed, so it takes its default, the current
    timestamp. *)
Definition insert_or_replace (i h s : string) (now : Z) (t : Table) : Table :=
  (filter (fun r => negb (conflicts i h r)) t ++ [mkRow i h s now now])%list.

(** [UPDATE ssl_records SET status = ?, updated_at = CURRENT_TIMESTAMP
    WHERE id = ?] *)
Definition update_status_stamped (s i : string) (now : Z) (t : Table) : Table :=
  map (fun r => if String.eqb (id r) i
                then mkRow (id r) (hostname r) s (created_at r) now
                else r) t.

(** [UPDATE ssl_records SET status = ? WHERE id = ?] *)
Definition update_status (s i : string) (t : Table) : Table :=
  map (fun r => if String.eqb (id r) i
                then mkRow (id r) (hostname r) s (created_at r) (updated_at r)
                else r) t.

(** [DELETE FROM ssl_records WHERE id = ?] *)
Definition delete_where_id (i : string) (t : Table) : Table :=
  filter (fun r => negb (String.eqb (id r) i)) t.

(** [SELECT * FROM ssl_records WHERE hostname = ?] with [.get]: the first
    matching row, or [undefined]. *)
Definition select_where_hostname (h : string) (t : Table) : option Row :=
  find (fun r => String.eqb (hostname r) h) t.

(** Insertion of a row into a list ordered by [created_at] descending. *)
Fixpoint insert_desc (r : Row) (rows : list Row) : list Row :=
  match rows with
  | [] => [r]
  | x :: rest =>
      if created_at x <? created_at r then r :: x :: rest
      else x :: insert_desc r rest
  end.

(** [SELECT * FROM ssl_records ORDER BY created_at DESC] with [.all]. *)
Definition select_order_by_created_at_desc (t : Table) : list Row :=
  fold_right insert_desc [] t.

(** Modelled from the spec: the store contract's [getById], the point lookup
    on the primary key.  [index.js] addresses rows by id only in the WHERE
    clauses above and never issues this query itself. *)
Definition getById (i : string) (t : Table) : option Row :=
  find (fun r => String.eqb (id r) i) t.


(** The constraints SQLite enforces on the table: [id] is the primary key
    and [hostname] is unique. *)
Definition constraints (t : Table) : Prop :=
  NoDup (map id t) /\ NoDup (map hostname t).

End Sql.

(** ** The remote authority *)

(** The outcome of one awaited axios call. *)
Inductive Axios (A : Type) : Type :=
| Resolved (data_result : A)
| Rejected (err : JsError).
Arguments Resolved {A} data_result.
Arguments Rejected {A} err.

(** The five requests the service sends.  Each answer may depend on the
    number of calls made before it (first argument), which lets the
    authority change its mind over time: fail twice, then succeed. *)
Record Authority : Type := mkAuthority {
  (** [POST /zones/:zone/custom_hostnames] with [{ hostname, ssl }] *)
  post_custom_hostnames : nat -> string -> Axios CustomHostname;
  (** [GET /zones/:zone/custom_hostnames/:id] *)
  get_custom_hostname : nat -> string -> Axios CustomHostname;
  (** [GET /zones/:zone/custom_hostnames?hostname=:hostname]; [result] may
      be missing from the answer *)
  get_custom_hostnames : nat -> string -> Axios (option (list CustomHostname));
  (** [PATCH /zones/:zone/custom_hostnames/:id] with [{ ssl: { settings } }];
      [settings] is left out of the JSON text when it is [undefined] *)
  patch_custom_hostname : nat -> string -> option string -> Axios CustomHostname;
  (** [DELETE /zones/:zone/custom_hostnames/:id]; the body is opaque *)
  delete_custom_hostname : nat -> string -> Axios string
}.

(** ** The world and the computations over it *)

Inductive LogLine : Type :=
| Warn (attempt : Z) (hostnameOrId payload : string)
| Log (hostname status : string)
| Error (hostname message : string).

Record World : Type := mkWorld {
  db : Sql.Table;
  clock : Z;
  authority : Authority;
  calls : nat;
  console : list LogLine
}.

(** How a JavaScript computation ends.  [Fuel] marks a loop cut off by the
    embedding; it is not an exception and no [catch] sees it. *)
Inductive Completion (A : Type) : Type :=
| Normal (value : A)
| Throw (err : JsError)
| Fuel.
Arguments Normal {A} value.
Arguments Throw {A} err.
Arguments Fuel {A}.

Definition Js (A : Type) : Type := World -> Completion A * World.

Definition ret {A} (a : A) : Js A := fun w => (Normal a, w).

Definition throw {A} (e : JsError) : Js A := fun w => (Throw e, w).

Definition bind {A B} (c : Js A) (k : A -> Js B) : Js B :=
  fun w =>
    match c w with
    | (Normal a, w') => k a w'
    | (Throw e, w') => (Throw e, w')
    | (Fuel, w') => (Fuel, w')
    end.

(** [try { c } catch (err) { handler err }]: what [c] did to the world
    before it threw stays done. *)
Definition try_catch {A} (c : Js A) (handler : JsError -> Js A) : Js A :=
  fun w =>
    match c w with
    | (Throw e, w') => handler e w'
    | done => done
    end.

Declare Scope js_scope.
Delimit Scope js_scope with js.
Notation "x <- c ;; k" := (bind c (fun x => k))
  (at level 61, c at next level, right associativity) : js_scope.
Notation "c ;;; k" := (bind c (fun _ => k))
  (at level 61, right associativity) : js_scope.
Local Open Scope js_scope.

(** [await axios.<verb>(...)]: the call is answered by the authority
    according to the number of calls already made, and counted. *)
Definition axios {A} (request : Authority -> nat -> Axios A) : Js A :=
  fun w =>
    let w' := mkWorld (db w) (clock w) (authority w) (S (calls w)) (console w) in
    match request (authority w) (calls w) with
    | Resolved a => (Normal a, w')
    | Rejected e => (Throw e, w')
    end.

(** [await new Promise((r) => setTimeout(r, ms))], in seconds. *)
Definition sleep (seconds : Z) : Js unit :=
  fun w => (Normal tt,
            mkWorld (db w) (clock w + seconds) (authority w) (calls w) (console w)).

(** [db.prepare(statement).run(...)]; the statement reads
    [CURRENT_TIMESTAMP] from the clock. *)
Definition db_run (statement : Z -> Sql.Table -> Sql.Table) : Js unit :=
  fun w => (Normal tt,
            mkWorld (statement (clock w) (db w)) (clock w) (authority w)
                    (calls w) (console w)).

(** [db.prepare(query).get(...)] and [.all()] *)
Definition db_query {A} (query : Sql.Table -> A) : Js A :=
  fun w => (Normal (query (db w)), w).

Definition console_write (line : LogLine) : Js unit :=
  fun w => (Normal tt,
            mkWorld (db w) (clock w) (authority w) (calls w) (console w ++ [line])%list).

(** Time passing between two requests. *)
Definition elapse (seconds : Z) (w : World) : World :=
  mkWorld (db w) (clock w + seconds) (authority w) (calls w) (console w).

(** ** The helper [fetchCloudflareStatus] *)

(** The body of [for (let i = 0; i < retries; i++) { try ... catch ... }]
    from iteration [i] on.  Falling out of the loop returns [undefined],
    here [None]. *)
Fixpoint fetch_loop (fuel : nat) (hostnameOrId : string) (retries i : Z)
  : Js (option CustomHostname) :=
  match fuel with
  | O => fun w => (Fuel, w)
  | S fuel' =>
      if i <? retries then
        attempt <-
          try_catch
            (result <- axios (fun cf n => get_custom_hostname cf n hostnameOrId) ;;
             ret (Some result))
            (fun err =>
               console_write (Warn (i + 1) hostnameOrId (error_payload err)) ;;;
               if i =? retries - 1 then throw err
               else sleep 60 ;;; ret None) ;;
        match attempt with
        | Some result => ret (Some result)
        | None => fetch_loop fuel' hostnameOrId retries (i + 1)
        end
      else ret None
  end.

Definition fetchCloudflareStatus (hostnameOrId : string) (retries : Z)
  : Js (option CustomHostname) :=
  fetch_loop (S (Z.to_nat retries)) hostnameOrId retries 0.

(** [updated.status] where [updated] may be [undefined]. *)
Definition status_of (updated : option CustomHostname) : Js string :=
  match updated with
  | Some u => ret (result_status u)
  | None =>
      throw (mkJsError None
               "Cannot read properties of undefined (reading 'status')")
  end.

(** ** HTTP responses *)

Inductive Body : Type :=
| Failure (msg : string)              (* { success: false, message } *)
| ErrorBody (error : string)          (* { success: false, error } *)
| DataResult (data : CustomHostname)  (* { success: true, data }, authority record *)
| DataUndefined                       (* { success: true }, data undefined *)
| DataRow (data : Row)                (* { success: true, data }, local row *)
| DataRows (data : list Row)
| DataRaw (data : string).

Record Response : Type := mkResponse {
  code : Z;
  json : Body
}.

(** The task [POST /ssl] leaves behind: the closure of the async arrow
    function over [ssl.id] and the request's [hostname]. *)
Record Detached : Type := mkDetached {
  task_id : string;
  task_hostname : string
}.

(** [req.body] as a handler finds it: [undefined] when the request carried
    no body that [express.json()] parsed, otherwise an object, of which the
    handler reads one property that may be absent. *)
Inductive RequestBody : Type :=
| NoBody
| JsonBody (property : option string).

(** [const { name } = req.body]: destructuring [undefined] throws a
    [TypeError]. *)
Definition destructure (name : string) (body : RequestBody) : Js (option string) :=
  match body with
  | NoBody =>
      throw (mkJsError None
               ("Cannot destructure property '" ++ name
                ++ "' of 'req.body' as it is undefined."))
  | JsonBody property => ret property
  end.

(** [!hostname] for a body property that is absent or a string. *)
Definition falsy (hostname : option string) : bool :=
  match hostname with
  | None => true
  | Some h => String.eqb h ""
  end.

Definition internal_error (err : JsError) : Response :=
  mkResponse 500 (ErrorBody (error_payload err)).

(** ** The route handlers *)

(** The async arrow function [POST /ssl] calls without awaiting it: poll the
    authority, write the status it reports, and only log a failure. *)
Definition reconcile (task : Detached) : Js unit :=
  try_catch
    (updated <- fetchCloudflareStatus (task_id task) 3 ;;
     status <- status_of updated ;;
     db_run (Sql.update_status_stamped status (task_id task)) ;;;
     console_write (Log (task_hostname task) status))
    (fun err => console_write (Error (task_hostname task) (message err))).

(** [app.post("/ssl", ...)] up to the point where the detached task is
    started; the task is returned to whoever schedules it. *)
Definition post_ssl (body : RequestBody)
  : Js (Response * option Detached) :=
  try_catch
    (body_hostname <- destructure "hostname" body ;;
     match body_hostname with
     | Some hostname =>
         if falsy body_hostname
         then ret (mkResponse 400 (Failure "hostname required"), None)
         else
           ssl <- axios (fun cf n => post_custom_hostnames cf n hostname) ;;
           db_run (Sql.insert_or_replace
                     (result_id ssl) (result_hostname ssl) "pending") ;;;
           ret (mkResponse 200 (DataResult (spread_with_status ssl "pending")),
                Some (mkDetached (result_id ssl) hostname))
     | None => ret (mkResponse 400 (Failure "hostname required"), None)
     end)
    (fun err => ret (internal_error err, None)).

(** [app.get("/ssl/:hostname", ...)] *)
Definition get_ssl (hostname : string) : Js Response :=
  try_catch
    (local <- db_query (Sql.select_where_hostname hostname) ;;
     match local with
     | Some row => ret (mkResponse 200 (DataRow row))
     | None =>
         result <- axios (fun cf n => get_custom_hostnames cf n hostname) ;;
         match result with
         | Some (first :: _) => ret (mkResponse 200 (DataResult first))
         | Some [] | None => ret (mkResponse 404 (Failure "Not found"))
         end
     end)
    (fun error => ret (internal_error error)).

(** [app.get("/ssl/:hostname/recheck", ...)] *)
Definition get_ssl_recheck (hostname : string) : Js Response :=
  try_catch
    (record <- db_query (Sql.select_where_hostname hostname) ;;
     match record with
     | None => ret (mkResponse 404 (Failure "Not found in DB"))
     | Some record =>
         updated <- fetchCloudflareStatus (id record) 3 ;;
         status <- status_of updated ;;
         db_run (Sql.update_status_stamped status (id record)) ;;;
         match updated with
         | Some u => ret (mkResponse 200 (DataResult u))
         | None => ret (mkResponse 200 DataUndefined)
         end
     end)
    (fun err => ret (internal_error err)).

(** [app.put("/ssl/:id", ...)] *)
Definition put_ssl (id : string) (body : RequestBody) : Js Response :=
  try_catch
    (sslSettings <- destructure "sslSettings" body ;;
     updated <- axios (fun cf n => patch_custom_hostname cf n id sslSettings) ;;
     db_run (fun _ => Sql.update_status (result_status updated) id) ;;;
     ret (mkResponse 200 (DataResult updated)))
    (fun error => ret (internal_error error)).

(** [app.delete("/ssl/:id", ...)] *)
Definition delete_ssl (id : string) : Js Response :=
  try_catch
    (result <- axios (fun cf n => delete_custom_hostname cf n id) ;;
     db_run (fun _ => Sql.delete_where_id id) ;;;
     ret (mkResponse 200 (DataRaw result)))
    (fun error => ret (internal_error error)).

(** [app.get("/ssl", ...)] *)
Definition list_ssl : Js Response :=
  try_catch
    (rows <- db_query Sql.select_order_by_created_at_desc ;;
     ret (mkResponse 200 (DataRows rows)))
    (fun error => ret (mkResponse 500 (ErrorBody (message error)))).

(** ** Schedules

    What the event loop runs, one piece at a time: a request handled to its
    response, a detached reconciliation running to its end, or time
    passing.  [Create] and [UpdateSettings] are the requests of a client
    that sends a JSON body; [PostSsl] and [PutSsl] are the same two routes
    with whatever [req.body] the request brings. *)
Inductive Event : Type :=
| Create (hostname : option string)
| Read (hostname : string)
| Recheck (hostname : string)
| UpdateSettings (id sslSettings : string)
| Delete (id : string)
| ListAll
| Reconcile (task : Detached)
| Wait (seconds : Z)
| PostSsl (body : RequestBody)
| PutSsl (id : string) (body : RequestBody).

Definition step (e : Event) (w : World) : World :=
  match e with
  | Create h => snd (post_ssl (JsonBody h) w)
  | Read h => snd (get_ssl h w)
  | Recheck h => snd (get_ssl_recheck h w)
  | UpdateSettings i s => snd (put_ssl i (JsonBody (Some s)) w)
  | Delete i => snd (delete_ssl i w)
  | ListAll => snd (list_ssl w)
  | Reconcile task => snd (reconcile task w)
  | Wait s => elapse s w
  | PostSsl body => snd (post_ssl body w)
  | PutSsl i body => snd (put_ssl i body w)
  end.

Definition run (schedule : list Event) (w : World) : World :=
  fold_left (fun w e => step e w) schedule w.

(** The answer of the authority to the [j]-th request for the record
    [hostnameOrId], counted from world [w]. *)
Definition answer (hostnameOrId : string) (w : World) (j : nat)
  : Axios CustomHostname :=
  get_custom_hostname (authority w) (calls w + j)%nat hostnameOrId.

(** ** What a piece of the schedule may do to the table *)

(** The five ways the handlers touch [ssl_records]. *)
Inductive write : Sql.Table -> Sql.Table -> Prop :=
| write_nothing t : write t t
| write_insert_or_replace i h s now t :
    write t (Sql.insert_or_replace i h s now t)
| write_update_stamped s i now t :
    write t (Sql.update_status_stamped s i now t)
| write_update s i t :
    write t (Sql.update_status s i t)
| write_delete i t :
    write t (Sql.delete_where_id i t).



(** ** A stub authority and sample worlds *)

Module Demo.

Definition unavailable : JsError :=
  mkJsError (Some "service unavailable") "Request failed with status code 503".

(** Creates every hostname under the id [abc], rejects the first
    [failures] calls when asked for a record, and answers everything else. *)
Definition cloudflare (failures : nat) : Authority :=
  mkAuthority
    (fun _ hostname =>
       Resolved (mkCustomHostname "abc" hostname "initializing" "{}"))
    (fun n id =>
       if (n <? failures)%nat then Rejected unavailable
       else Resolved (mkCustomHostname id "example.com" "active" "{}"))
    (fun _ _ => Resolved (Some []))
    (fun _ id _ => Resolved (mkCustomHostname id "example.com" "active" "{}"))
    (fun _ _ => Resolved "{ status: pending_deletion }").

(** An empty table at second [100]. *)
Definition fresh (failures : nat) : World :=
  mkWorld [] 100 (cloudflare failures) 0 [].

(** The table after [POST /ssl] for [example.com] at second [100]. *)
Definition created (failures : nat) : World :=
  run [Create (Some "example.com")] (fresh failures).

End Demo.

(** ** Vocabulary for the properties of the whole service *)

(** The order of the listing: [a] may stand before [b]. *)
Definition newer_or_same (a b : Row) : Prop := created_at b <= created_at a.

(** The requests that reach [INSERT OR REPLACE]. *)
Definition is_create (e : Event) : bool :=
  match e with
  | Create _ | PostSsl _ => true
  | _ => false
  end.

(** Every row of [t'] is a row of [t] up to its [status] and
    [updated_at]. *)
Definition rows_from (t t' : Sql.Table) : Prop :=
  forall r', In r' t' ->
    exists r, In r t /\ id r = id r' /\ hostname r = hostname r'
              /\ created_at r = created_at r'.

(** ** More stub authorities and sample worlds *)

Module Samples.

(** An authority that rejects every request. *)
Definition down : Authority :=
  mkAuthority
    (fun _ _ => Rejected Demo.unavailable)
    (fun _ _ => Rejected Demo.unavailable)
    (fun _ _ => Rejected Demo.unavailable)
    (fun _ _ _ => Rejected Demo.unavailable)
    (fun _ _ => Rejected Demo.unavailable).

(** The world [w] during an outage of the authority. *)
Definition outage (w : World) : World :=
  mkWorld (db w) (clock w) down (calls w) (console w).

(** An authority that registers a hostname under [abc] when it is asked
    first and under [xyz] afterwards. *)
Definition renumbering : Authority :=
  mkAuthority
    (fun n hostname =>
       Resolved (mkCustomHostname (if (n =? 0)%nat then "abc" else "xyz")
                   hostname "initializing" "{}"))
    (fun _ id => Resolved (mkCustomHostname id "example.com" "active" "{}"))
    (fun _ hostname =>
       Resolved (Some [mkCustomHostname "remote" hostname "active" "{}"]))
    (fun _ id _ => Resolved (mkCustomHostname id "example.com" "active" "{}"))
    (fun _ _ => Resolved "{}").

(** An authority that stores every hostname as [example.com], the spelling
    it considers canonical. *)
Definition normalizing : Authority :=
  mkAuthority
    (fun _ _ => Resolved (mkCustomHostname "abc" "example.com" "initializing" "{}"))
    (fun _ id => Resolved (mkCustomHostname id "example.com" "active" "{}"))
    (fun _ _ => Resolved (Some []))
    (fun _ id _ => Resolved (mkCustomHostname id "example.com" "active" "{}"))
    (fun _ _ => Resolved "{}").

(** [example.com] created under [abc] at second 100. *)
Definition renumbered : World :=
  run [Create (Some "example.com")] (mkWorld [] 100 renumbering 0 []).

(** Two hostnames, the older one listed first in the table. *)
Definition two_rows : World :=
  mkWorld [mkRow "abc" "example.com" "active" 100 100;
           mkRow "def" "example.org" "pending" 200 200]
          300 (Demo.cloudflare 0) 0 [].

End Samples.

(** * Properties *)

(** ** The SQL statements *)

Section SqlFacts.

Import Sql.

Lemma getById_none (i : string) (t : Table) :
  getById i t = None <-> (forall r, In r t -> id r <> i).
Proof.
  unfold getById. split.
  - intros Hnone r Hin Heq.
    apply (find_none _ _ Hnone) in Hin.
    rewrite Heq, String.eqb_refl in Hin. discriminate.
  - intros Hall. induction t as [|x t IH]; simpl; [reflexivity|].
    destruct (String.eqb_spec (id x) i) as [Heq|Hne].
    + exfalso. apply (Hall x); [left; reflexivity | exact Heq].
    + apply IH. intros r Hin. apply Hall. right. exact Hin.
Qed.

Lemma getById_delete_where_id (i : string) (t : Table) :
  getById i (delete_where_id i t) = None.
Proof.
  apply getById_none. intros r Hin. unfold delete_where_id in Hin.
  apply filter_In in Hin. destruct Hin as [_ Hkeep].
  destruct (String.eqb_spec (id r) i); [discriminate | assumption].
Qed.

Lemma map_id_update_status_stamped s i now t :
  map id (update_status_stamped s i now t) = map id t.
Proof.
  unfold update_status_stamped. rewrite map_map. apply map_ext.
  intros r. destruct (String.eqb (id r) i); reflexivity.
Qed.

Lemma map_hostname_update_status_stamped s i now t :
  map hostname (update_status_stamped s i now t) = map hostname t.
Proof.
  unfold update_status_stamped. rewrite map_map. apply map_ext.
  intros r. destruct (String.eqb (id r) i); reflexivity.
Qed.

Lemma map_created_at_update_status_stamped s i now t :
  map created_at (update_status_stamped s i now t) = map created_at t.
Proof.
  unfold update_status_stamped. rewrite map_map. apply map_ext.
  intros r. destruct (String.eqb (id r) i); reflexivity.
Qed.

Lemma map_id_update_status s i t : map id (update_status s i t) = map id t.
Proof.
  unfold update_status. rewrite map_map. apply map_ext.
  intros r. destruct (String.eqb (id r) i); reflexivity.
Qed.

Lemma map_hostname_update_status s i t :
  map hostname (update_status s i t) = map hostname t.
Proof.
  unfold update_status. rewrite map_map. apply map_ext.
  intros r. destruct (String.eqb (id r) i); reflexivity.
Qed.

(** An [UPDATE ... WHERE id = ?] finds nothing to change when no row has
    the id: it never inserts. *)
Lemma update_status_stamped_absent s i now t :
  getById i t = None -> update_status_stamped s i now t = t.
Proof.
  intros Hnone. unfold update_status_stamped.
  rewrite <- (map_id t) at 2. apply map_ext_in. intros r Hin.
  destruct (String.eqb_spec (id r) i) as [Heq|_]; [|reflexivity].
  exfalso. exact (proj1 (getById_none i t) Hnone r Hin Heq).
Qed.

Lemma getById_update_status_stamped s i now t :
  getById i (update_status_stamped s i now t) =
  option_map (fun r => mkRow (id r) (hostname r) s (created_at r) now)
             (getById i t).
Proof.
  unfold getById, update_status_stamped.
  induction t as [|x t IH]; simpl; [reflexivity|].
  destruct (String.eqb (id x) i) eqn:E; simpl; rewrite E; [reflexivity|].
  exact IH.
Qed.

Lemma select_where_hostname_in h t r :
  select_where_hostname h t = Some r -> In r t /\ hostname r = h.
Proof.
  unfold select_where_hostname. intros Hfind.
  apply find_some in Hfind. destruct Hfind as [Hin Heq].
  split; [exact Hin | apply String.eqb_eq; exact Heq].
Qed.

Lemma select_where_hostname_none h t :
  select_where_hostname h t = None -> forall r, In r t -> hostname r <> h.
Proof.
  unfold select_where_hostname. intros Hnone r Hin Heq.
  apply (find_none _ _ Hnone) in Hin.
  rewrite Heq, String.eqb_refl in Hin. discriminate.
Qed.

(** Deleting rows keeps a column free of duplicates. *)
Lemma NoDup_map_filter {K : Type} (column : Row -> K) (keep : Row -> bool) :
  forall t : Table,
    NoDup (map column t) -> NoDup (map column (filter keep t)).
Proof.
  intros t. induction t as [|x t IH]; simpl; intros Hnd; [constructor|].
  inversion Hnd as [|? ? Hnotin Hnd']; subst.
  destruct (keep x); simpl; [|apply IH; exact Hnd'].
  constructor; [|apply IH; exact Hnd'].
  intros Hin. apply Hnotin. apply in_map_iff in Hin.
  destruct Hin as [y [Hfy Hy]]. apply filter_In in Hy.
  apply in_map_iff. exists y. split; [exact Hfy | apply Hy].
Qed.

Lemma NoDup_snoc {A} (l : list A) (a : A) :
  NoDup l -> ~ In a l -> NoDup (l ++ [a]).
Proof.
  intros Hnd Hnotin. induction Hnd as [|x l Hx Hnd IH]; simpl.
  - constructor; [intros [] | constructor].
  - constructor.
    + intros Hin. apply in_app_or in Hin. destruct Hin as [Hin|[Heq|[]]].
      * exact (Hx Hin).
      * apply Hnotin. left. symmetry. exact Heq.
    + apply IH. intros Hin. apply Hnotin. right. exact Hin.
Qed.

Lemma insert_or_replace_no_conflict (i h : string) (t : Table) (r : Row) :
  In r (filter (fun r => negb (conflicts i h r)) t) ->
  id r <> i /\ hostname r <> h.
Proof.
  intros Hin. apply filter_In in Hin. destruct Hin as [_ Hkeep].
  unfold conflicts in Hkeep. apply negb_true_iff, orb_false_iff in Hkeep.
  destruct Hkeep as [Hi Hh].
  split; intros Heq; rewrite Heq, String.eqb_refl in *; discriminate.
Qed.

Lemma constraints_insert_or_replace i h s now t :
  constraints t -> constraints (insert_or_replace i h s now t).
Proof.
  intros [Hid Hhost]. unfold constraints, insert_or_replace.
  rewrite !map_app. simpl. split.
  - apply NoDup_snoc; [apply NoDup_map_filter; exact Hid|].
    intros Hin. apply in_map_iff in Hin. destruct Hin as [r [Heq Hin]].
    apply (insert_or_replace_no_conflict i h) in Hin. tauto.
  - apply NoDup_snoc; [apply NoDup_map_filter; exact Hhost|].
    intros Hin. apply in_map_iff in Hin. destruct Hin as [r [Heq Hin]].
    apply (insert_or_replace_no_conflict i h) in Hin. tauto.
Qed.

Lemma constraints_update_status_stamped s i now t :
  constraints t -> constraints (update_status_stamped s i now t).
Proof.
  unfold constraints.
  rewrite map_id_update_status_stamped, map_hostname_update_status_stamped.
  trivial.
Qed.

Lemma constraints_update_status s i t :
  constraints t -> constraints (update_status s i t).
Proof.
  unfold constraints.
  rewrite map_id_update_status, map_hostname_update_status. trivial.
Qed.

Lemma constraints_delete_where_id i t :
  constraints t -> constraints (delete_where_id i t).
Proof.
  intros [Hid Hhost]. split; apply NoDup_map_filter; assumption.
Qed.

Lemma find_app_none {A} (p : A -> bool) (l l' : list A) :
  find p l = None -> find p (l ++ l') = find p l'.
Proof.
  induction l as [|x l IH]; simpl; [reflexivity|].
  destruct (p x); [discriminate | exact IH].
Qed.

Lemma find_filter_none {A} (p q : A -> bool) (l : list A) :
  (forall x, q x = true -> p x = false) -> find p (filter q l) = None.
Proof.
  intros Hpq. induction l as [|x l IH]; simpl; [reflexivity|].
  destruct (q x) eqn:Hq; [|exact IH].
  simpl. rewrite (Hpq x Hq). exact IH.
Qed.

Lemma getById_insert_or_replace i h s now t :
  getById i (insert_or_replace i h s now t) = Some (mkRow i h s now now).
Proof.
  unfold getById, insert_or_replace. rewrite find_app_none.
  - simpl. rewrite String.eqb_refl. reflexivity.
  - apply find_filter_none. intros x Hq. unfold conflicts in Hq.
    apply negb_true_iff, orb_false_iff in Hq. apply Hq.
Qed.

Lemma select_where_hostname_insert_or_replace i h s now t :
  select_where_hostname h (insert_or_replace i h s now t) =
  Some (mkRow i h s now now).
Proof.
  unfold select_where_hostname, insert_or_replace. rewrite find_app_none.
  - simpl. rewrite String.eqb_refl. reflexivity.
  - apply find_filter_none. intros x Hq. unfold conflicts in Hq.
    apply negb_true_iff, orb_false_iff in Hq. apply Hq.
Qed.







Lemma in_insert_desc r x rows : In x (insert_desc r rows) <-> x = r \/ In x rows.
Proof.
  induction rows as [|y rows IH]; simpl.
  - intuition congruence.
  - destruct (created_at y <? created_at r); simpl; [intuition congruence|].
    rewrite IH. intuition congruence.
Qed.


End SqlFacts.

(** ** The poller *)

Section Poller.

Variable hostnameOrId : string.
Variable retries : Z.

(** The loop entered at iteration [i] when the next [k] calls are rejected:
    it sleeps after each of them and ends with what call [k] brings,
    provided that call is resolved or is the last one of the budget. *)
Lemma fetch_loop_attempts (k : nat) :
  forall (fuel : nat) (i : Z) (w : World),
    0 <= i ->
    (k < fuel)%nat ->
    i + Z.of_nat k <= retries - 1 ->
    (forall j, (j < k)%nat -> exists e, answer hostnameOrId w j = Rejected e) ->
    (i + Z.of_nat k = retries - 1 \/ exists r, answer hostnameOrId w k = Resolved r) ->
    exists w',
      fetch_loop fuel hostnameOrId retries i w =
        (match answer hostnameOrId w k with
         | Resolved r => Normal (Some r)
         | Rejected e => Throw e
         end, w')
      /\ db w' = db w
      /\ authority w' = authority w
      /\ calls w' = (calls w + S k)%nat
      /\ clock w' = clock w + 60 * Z.of_nat k.
Proof.
  unfold answer. induction k as [|k IH]; intros fuel i w Hi Hfuel Hle Hrej Hlast.
  - destruct fuel as [|fuel]; [lia|]. simpl.
    replace (i <? retries) with true by (symmetry; apply Z.ltb_lt; lia).
    rewrite Nat.add_0_r in *.
    unfold bind, try_catch, axios, console_write, throw, ret. simpl.
    destruct (get_custom_hostname (authority w) (calls w) hostnameOrId)
      as [r|e] eqn:Hget.
    + eexists. split; [reflexivity|]. simpl.
      repeat split; try reflexivity; lia.
    + destruct Hlast as [Hlast|[r Hr]]; [|discriminate].
      replace (i =? retries - 1) with true by (symmetry; apply Z.eqb_eq; lia).
      eexists. split; [reflexivity|]. simpl.
      repeat split; try reflexivity; lia.
  - destruct fuel as [|fuel]; [lia|]. simpl.
    replace (i <? retries) with true by (symmetry; apply Z.ltb_lt; lia).
    destruct (Hrej 0%nat) as [e0 He0]; [lia|]. rewrite Nat.add_0_r in He0.
    unfold bind at 1. unfold try_catch, bind at 1. unfold axios at 1.
    rewrite He0.
    unfold bind, console_write, sleep, ret. simpl.
    replace (i =? retries - 1) with false by (symmetry; apply Z.eqb_neq; lia).
    simpl.
    match goal with
    | |- context [fetch_loop fuel hostnameOrId retries (i + 1) ?w1] =>
        destruct (IH fuel (i + 1) w1) as [w' [Hrun [Hdb [Hcf [Hcalls Hclock]]]]]
    end.
    + lia.
    + lia.
    + lia.
    + simpl. intros j Hj. destruct (Hrej (S j)) as [e He]; [lia|].
      exists e. rewrite <- He. f_equal. lia.
    + simpl. destruct Hlast as [Hlast|[r Hr]]; [left; lia|].
      right. exists r. rewrite <- Hr. f_equal. lia.
    + cbn [db authority calls clock] in *. exists w'. split.
      * rewrite Hrun. replace (S (calls w) + k)%nat with (calls w + S k)%nat by lia.
        reflexivity.
      * repeat split; try assumption; lia.
Qed.

(** The fuel given by [fetchCloudflareStatus] is never used up. *)
Lemma fetch_loop_fuel (fuel : nat) :
  forall (i : Z) (w : World),
    0 <= i ->
    (Z.to_nat (retries - i) < fuel)%nat ->
    fst (fetch_loop fuel hostnameOrId retries i w) <> Fuel.
Proof.
  induction fuel as [|fuel IH]; intros i w Hi Hfuel; [lia|]. simpl.
  destruct (Z.ltb_spec i retries) as [Hlt|Hge]; [|simpl; discriminate].
  unfold bind at 1. unfold try_catch, bind at 1. unfold axios at 1.
  destruct (get_custom_hostname (authority w) (calls w) hostnameOrId) as [r|e].
  - simpl. discriminate.
  - unfold bind, console_write, sleep, throw, ret. simpl.
    destruct (i =? retries - 1); simpl; [discriminate|].
    apply IH; lia.
Qed.

End Poller.

Lemma fetchCloudflareStatus_terminates (hostnameOrId : string) (retries : Z) (w : World) :
  fst (fetchCloudflareStatus hostnameOrId retries w) <> Fuel.
Proof.
  unfold fetchCloudflareStatus. apply fetch_loop_fuel; lia.
Qed.

(** ** What the computations leave untouched *)

Arguments fetchCloudflareStatus : simpl never.

Ltac js_unfold :=
  unfold bind, try_catch, ret, throw, axios, db_run, db_query,
    console_write, sleep, status_of, internal_error, destructure.

Lemma fetch_loop_frame (hostnameOrId : string) (retries : Z) (fuel : nat) :
  forall (i : Z) (w : World),
    db (snd (fetch_loop fuel hostnameOrId retries i w)) = db w
    /\ authority (snd (fetch_loop fuel hostnameOrId retries i w)) = authority w.
Proof.
  induction fuel as [|fuel IH]; intros i w; simpl; [split; reflexivity|].
  destruct (i <? retries); [|split; reflexivity].
  js_unfold. simpl.
  destruct (get_custom_hostname (authority w) (calls w) hostnameOrId) as [r|e];
    simpl; [split; reflexivity|].
  destruct (i =? retries - 1); simpl; [split; reflexivity|].
  match goal with
  | |- context [fetch_loop fuel hostnameOrId retries (i + 1) ?w1] =>
      destruct (IH (i + 1) w1) as [Hdb Hcf]
  end.
  rewrite Hdb, Hcf. split; reflexivity.
Qed.

Lemma fetchCloudflareStatus_frame (hostnameOrId : string) (retries : Z) (w : World) :
  db (snd (fetchCloudflareStatus hostnameOrId retries w)) = db w
  /\ authority (snd (fetchCloudflareStatus hostnameOrId retries w)) = authority w.
Proof. apply fetch_loop_frame. Qed.

(** The detached task writes at most one stamped [UPDATE] for its id. *)
Lemma reconcile_effect (task : Detached) (w : World) :
  authority (snd (reconcile task w)) = authority w
  /\ (db (snd (reconcile task w)) = db w
      \/ exists s now,
           db (snd (reconcile task w)) =
           Sql.update_status_stamped s (task_id task) now (db w)).
Proof.
  unfold reconcile. js_unfold.
  destruct (fetchCloudflareStatus_frame (task_id task) 3 w) as [Hdb Hcf].
  destruct (fetchCloudflareStatus (task_id task) 3 w) as [[[u|]|e|] w1];
    simpl in Hdb, Hcf; simpl; rewrite ?Hdb, ?Hcf.
  - split; [reflexivity|]. right. eauto.
  - split; [reflexivity|]. left. reflexivity.
  - split; [reflexivity|]. left. reflexivity.
  - split; [reflexivity|]. left. reflexivity.
Qed.

Lemma post_ssl_authority (body : RequestBody) (w : World) :
  authority (snd (post_ssl body w)) = authority w.
Proof.
  unfold post_ssl. js_unfold. destruct body as [|[h|]]; simpl; try reflexivity.
  destruct (String.eqb h ""); simpl; [reflexivity|].
  destruct (post_custom_hostnames (authority w) (calls w) h); reflexivity.
Qed.

Lemma put_ssl_authority (i : string) (body : RequestBody) (w : World) :
  authority (snd (put_ssl i body w)) = authority w.
Proof.
  unfold put_ssl. js_unfold. destruct body as [|s]; simpl; [reflexivity|].
  destruct (patch_custom_hostname (authority w) (calls w) i s); reflexivity.
Qed.

Lemma step_authority (e : Event) (w : World) : authority (step e w) = authority w.
Proof.
  destruct e as [b|h|h|i s|i| |task|s|body|i body]; simpl.
  - apply post_ssl_authority.
  - unfold get_ssl. js_unfold.
    destruct (Sql.select_where_hostname h (db w)); simpl; [reflexivity|].
    destruct (get_custom_hostnames (authority w) (calls w) h) as [[[|? ?]|]|];
      reflexivity.
  - unfold get_ssl_recheck. js_unfold.
    destruct (Sql.select_where_hostname h (db w)) as [record|]; [|reflexivity].
    destruct (fetchCloudflareStatus_frame (id record) 3 w) as [_ Hcf].
    destruct (fetchCloudflareStatus (id record) 3 w) as [[[u|]|e|] w1];
      simpl in Hcf; simpl; exact Hcf.
  - apply put_ssl_authority.
  - unfold delete_ssl. js_unfold.
    destruct (delete_custom_hostname (authority w) (calls w) i); reflexivity.
  - reflexivity.
  - apply reconcile_effect.
  - reflexivity.
  - apply post_ssl_authority.
  - apply put_ssl_authority.
Qed.

(** Every piece of a schedule changes the table by at most one of the five
    SQL writes. *)
Lemma post_ssl_write (body : RequestBody) (w : World) :
  write (db w) (db (snd (post_ssl body w))).
Proof.
  unfold post_ssl. js_unfold. destruct body as [|[h|]]; simpl; try constructor.
  destruct (String.eqb h ""); simpl; [constructor|].
  destruct (post_custom_hostnames (authority w) (calls w) h); simpl; constructor.
Qed.

Lemma put_ssl_write (i : string) (body : RequestBody) (w : World) :
  write (db w) (db (snd (put_ssl i body w))).
Proof.
  unfold put_ssl. js_unfold. destruct body as [|s]; simpl; [constructor|].
  destruct (patch_custom_hostname (authority w) (calls w) i s); simpl; constructor.
Qed.

Lemma step_write (e : Event) (w : World) : write (db w) (db (step e w)).
Proof.
  destruct e as [b|h|h|i s|i| |task|s|body|i body]; simpl.
  - apply post_ssl_write.
  - unfold get_ssl. js_unfold.
    destruct (Sql.select_where_hostname h (db w)); simpl; [constructor|].
    destruct (get_custom_hostnames (authority w) (calls w) h) as [[[|? ?]|]|];
      simpl; constructor.
  - unfold get_ssl_recheck. js_unfold.
    destruct (Sql.select_where_hostname h (db w)) as [record|]; [|constructor].
    destruct (fetchCloudflareStatus_frame (id record) 3 w) as [Hdb _].
    destruct (fetchCloudflareStatus (id record) 3 w) as [[[u|]|e|] w1];
      simpl in Hdb; simpl; rewrite ?Hdb; constructor.
  - apply put_ssl_write.
  - unfold delete_ssl. js_unfold.
    destruct (delete_custom_hostname (authority w) (calls w) i); simpl; constructor.
  - constructor.
  - destruct (reconcile_effect task w) as [_ [Hdb|[s [now Hdb]]]];
      rewrite Hdb; constructor.
  - constructor.
  - apply post_ssl_write.
  - apply put_ssl_write.
Qed.

Lemma write_constraints (t t' : Sql.Table) :
  write t t' -> Sql.constraints t -> Sql.constraints t'.
Proof.
  intros Hw Hc. destruct Hw.
  - exact Hc.
  - apply constraints_insert_or_replace. exact Hc.
  - apply constraints_update_status_stamped. exact Hc.
  - apply constraints_update_status. exact Hc.
  - apply constraints_delete_where_id. exact Hc.
Qed.

Lemma run_snoc (schedule : list Event) (e : Event) (w : World) :
  run (schedule ++ [e]) w = step e (run schedule w).
Proof. unfold run. rewrite fold_left_app. reflexivity. Qed.

Lemma run_authority (schedule : list Event) :
  forall w, authority (run schedule w) = authority w.
Proof.
  induction schedule as [|e schedule IH]; intros w; simpl; [reflexivity|].
  unfold run in IH. rewrite IH. apply step_authority.
Qed.

(** The primary key and the unique index hold in every world a schedule
    reaches. *)
Lemma run_constraints (schedule : list Event) :
  forall w, Sql.constraints (db w) -> Sql.constraints (db (run schedule w)).
Proof.
  induction schedule as [|e schedule IH]; intros w Hc; simpl; [exact Hc|].
  apply IH. exact (write_constraints _ _ (step_write e w) Hc).
Qed.

(** ** The poller, as its callers see it *)

(** [fetchCloudflareStatus] when the next [k] calls are rejected and call
    [k] is resolved or is the last one the budget allows. *)
Lemma fetchCloudflareStatus_attempts (hostnameOrId : string) (retries : Z)
    (w : World) (k : nat) :
  Z.of_nat k <= retries - 1 ->
  (forall j, (j < k)%nat ->
     exists e, get_custom_hostname (authority w) (calls w + j)%nat hostnameOrId
               = Rejected e) ->
  (Z.of_nat k = retries - 1
   \/ exists r, get_custom_hostname (authority w) (calls w + k)%nat hostnameOrId
                = Resolved r) ->
  exists w',
    fetchCloudflareStatus hostnameOrId retries w =
      (match get_custom_hostname (authority w) (calls w + k)%nat hostnameOrId with
       | Resolved r => Normal (Some r)
       | Rejected e => Throw e
       end, w')
    /\ db w' = db w
    /\ authority w' = authority w
    /\ calls w' = (calls w + S k)%nat
    /\ clock w' = clock w + 60 * Z.of_nat k.
Proof.
  intros Hk Hrej Hlast. unfold fetchCloudflareStatus.
  apply fetch_loop_attempts; try assumption; lia.
Qed.

(** ** The table under the handlers' writes *)

Section TableFacts.

Import Sql.

Lemma getById_none_map_id (i : string) (t : Table) :
  getById i t = None <-> ~ In i (map id t).
Proof.
  rewrite getById_none. split.
  - intros Hall Hin. apply in_map_iff in Hin. destruct Hin as [r [Heq Hin]].
    exact (Hall r Hin Heq).
  - intros Hnotin r Hin Heq. apply Hnotin. rewrite <- Heq. apply in_map. exact Hin.
Qed.

(** No write but [INSERT OR REPLACE] brings back an id that is absent. *)
Lemma update_keeps_absent (i s j : string) (now : Z) (t : Table) :
  getById i t = None -> getById i (update_status_stamped s j now t) = None.
Proof.
  rewrite !getById_none_map_id, map_id_update_status_stamped. trivial.
Qed.

Lemma select_where_hostname_map (f : Row -> Row) (h : string) (t : Table) :
  (forall r, hostname (f r) = hostname r) ->
  select_where_hostname h (map f t) = option_map f (select_where_hostname h t).
Proof.
  intros Hf. unfold select_where_hostname.
  induction t as [|x t IH]; simpl; [reflexivity|].
  rewrite Hf. destruct (String.eqb (hostname x) h); [reflexivity | exact IH].
Qed.

Lemma select_where_hostname_update_status_stamped h s i now t :
  select_where_hostname h (update_status_stamped s i now t) =
  option_map (fun r => if String.eqb (id r) i
                       then mkRow (id r) (hostname r) s (created_at r) now
                       else r)
             (select_where_hostname h t).
Proof.
  unfold update_status_stamped. apply select_where_hostname_map.
  intros r. destruct (String.eqb (id r) i); reflexivity.
Qed.

(** The stamp-less [UPDATE] of [PUT /ssl/:id] leaves every [updated_at] as
    it was. *)
Lemma map_updated_at_update_status s i t :
  map updated_at (update_status s i t) = map updated_at t.
Proof.
  unfold update_status. rewrite map_map. apply map_ext.
  intros r. destruct (String.eqb (id r) i); reflexivity.
Qed.

End TableFacts.

(** ** The handlers against an authority that answers *)

Lemma post_ssl_resolved (hostname : string) (ssl : CustomHostname) (w : World) :
  hostname <> "" ->
  post_custom_hostnames (authority w) (calls w) hostname = Resolved ssl ->
  post_ssl (JsonBody (Some hostname)) w =
    (Normal (mkResponse 200 (DataResult (spread_with_status ssl "pending")),
             Some (mkDetached (result_id ssl) hostname)),
     mkWorld (Sql.insert_or_replace (result_id ssl) (result_hostname ssl)
                "pending" (clock w) (db w))
             (clock w) (authority w) (S (calls w)) (console w)).
Proof.
  intros Hne Hres. unfold post_ssl. js_unfold. simpl.
  rewrite (proj2 (String.eqb_neq hostname "") Hne), Hres. reflexivity.
Qed.

(** A [200] from [POST /ssl] comes from a resolved create and from nothing
    else. *)
Lemma post_ssl_success_inv (body : RequestBody) (w w' : World)
    (response : Response) (task : option Detached) :
  post_ssl body w = (Normal (response, task), w') ->
  code response = 200 ->
  exists hostname ssl,
    body = JsonBody (Some hostname) /\ hostname <> ""
    /\ post_custom_hostnames (authority w) (calls w) hostname = Resolved ssl.
Proof.
  unfold post_ssl. js_unfold. destruct body as [|[hostname|]]; simpl.
  - intros Hrun Hcode. inversion Hrun; subst. discriminate.
  - destruct (String.eqb_spec hostname "") as [Heq|Hne]; simpl.
    + intros Hrun Hcode. inversion Hrun; subst. discriminate.
    + destruct (post_custom_hostnames (authority w) (calls w) hostname)
        as [ssl|e] eqn:Hres; simpl; intros Hrun Hcode.
      * exists hostname, ssl. auto.
      * inversion Hrun; subst. discriminate.
  - intros Hrun Hcode. inversion Hrun; subst. discriminate.
Qed.

Lemma post_ssl_completes (body : RequestBody) (w : World) :
  exists response task w',
    post_ssl body w = (Normal (response, task), w').
Proof.
  unfold post_ssl. js_unfold. destruct body as [|[hostname|]]; simpl.
  - eauto.
  - destruct (String.eqb hostname ""); simpl; [eauto|].
    destruct (post_custom_hostnames (authority w) (calls w) hostname); simpl; eauto.
  - eauto.
Qed.

Lemma delete_ssl_resolved (i body : string) (w : World) :
  delete_custom_hostname (authority w) (calls w) i = Resolved body ->
  delete_ssl i w =
    (Normal (mkResponse 200 (DataRaw body)),
     mkWorld (Sql.delete_where_id i (db w)) (clock w) (authority w)
             (S (calls w)) (console w)).
Proof.
  intros Hres. unfold delete_ssl. js_unfold. rewrite Hres. reflexivity.
Qed.

(** A detached reconciliation cannot bring back an id the table lacks. *)
Lemma reconcile_keeps_absent (i : string) (task : Detached) (w : World) :
  Sql.getById i (db w) = None ->
  Sql.getById i (db (snd (reconcile task w))) = None.
Proof.
  intros Hnone.
  destruct (reconcile_effect task w) as [_ [Hdb|[s [now Hdb]]]]; rewrite Hdb.
  - exact Hnone.
  - apply update_keeps_absent. exact Hnone.
Qed.

Lemma reconciles_keep_absent (i : string) (tasks : list Detached) :
  forall w, Sql.getById i (db w) = None ->
            Sql.getById i (db (run (map Reconcile tasks) w)) = None.
Proof.
  induction tasks as [|task tasks IH]; intros w Hnone; simpl; [exact Hnone|].
  apply IH. apply reconcile_keeps_absent. exact Hnone.
Qed.

(** ** Creates of one hostname *)

Section Creates.

Variable h : string.
Hypothesis h_truthy : h <> "".




End Creates.

(** * The claims *)

(** ** Timestamps *)

(** C1 (the code departs from the claim).  The claim: a Create that
    re-upserts a row already stored under the same id keeps the row's
    [createdAt].  The code: [example.com] is created under id [abc] at second
    100; fifty seconds later the same Create is answered with the same id,
    and [INSERT OR REPLACE] deletes the row and inserts a new one whose
    [created_at] takes its default, second 150. *)
Theorem C1_second_create_resets_created_at :
  let w1 := Demo.created 0 in
  let w2 := run [Wait 50; Create (Some "example.com")] w1 in
  Sql.getById "abc" (db w1) = Some (mkRow "abc" "example.com" "pending" 100 100)
  /\ Sql.getById "abc" (db w2) = Some (mkRow "abc" "example.com" "pending" 150 150).
Proof. split; reflexivity. Qed.

(** The same in general: whatever row was stored before, the row a
    successful Create leaves behind is created "now". *)
Lemma post_ssl_created_at_now (hostname : string) (ssl : CustomHostname) (w : World) :
  hostname <> "" ->
  post_custom_hostnames (authority w) (calls w) hostname = Resolved ssl ->
  option_map created_at
    (Sql.getById (result_id ssl) (db (snd (post_ssl (JsonBody (Some hostname)) w))))
  = Some (clock w).
Proof.
  intros Hne Hres. rewrite (post_ssl_resolved hostname ssl w Hne Hres). simpl.
  rewrite getById_insert_or_replace. reflexivity.
Qed.

(** The part of C1 the code keeps: the detached reconciliation never
    touches a [created_at]. *)
Lemma reconcile_created_at (task : Detached) (w : World) :
  map created_at (db (snd (reconcile task w))) = map created_at (db w).
Proof.
  destruct (reconcile_effect task w) as [_ [Hdb|[s [now Hdb]]]]; rewrite Hdb.
  - reflexivity.
  - apply map_created_at_update_status_stamped.
Qed.

(** C2 (the code departs from the claim).  The claim: every write to a
    record refreshes its [updatedAt].  The code: the row of [example.com] is
    written at second 100; at second 150 [PUT /ssl/abc] writes the status the
    authority reports, "active", and leaves [updated_at] at 100, whereas the
    recheck and the detached reconciliation run at the same second stamp the
    row with 150. *)
Theorem C2_put_leaves_updated_at_stale :
  let w := Demo.created 0 in
  let task := mkDetached "abc" "example.com" in
  clock (run [Wait 50; UpdateSettings "abc" "{ http2: off }"] w) = 150
  /\ Sql.getById "abc" (db (run [Wait 50; UpdateSettings "abc" "{ http2: off }"] w))
     = Some (mkRow "abc" "example.com" "active" 100 100)
  /\ Sql.getById "abc" (db (run [Wait 50; Recheck "example.com"] w))
     = Some (mkRow "abc" "example.com" "active" 100 150)
  /\ Sql.getById "abc" (db (run [Wait 50; Reconcile task] w))
     = Some (mkRow "abc" "example.com" "active" 100 150).
Proof. repeat split; reflexivity. Qed.

(** The same in general: [PUT /ssl/:id] never changes an [updated_at]. *)
Lemma put_ssl_updated_at (i : string) (body : RequestBody) (w : World) :
  map updated_at (db (snd (put_ssl i body w))) = map updated_at (db w).
Proof.
  unfold put_ssl. js_unfold. destruct body as [|sslSettings]; simpl; [reflexivity|].
  destruct (patch_custom_hostname (authority w) (calls w) i sslSettings); simpl.
  - apply map_updated_at_update_status.
  - reflexivity.
Qed.

(** ** The poller *)

(** C3, amended.  For a budget [maxAttempts >= 1]: when the first
    [maxAttempts - 1] calls to the authority are rejected, the poller makes
    exactly [maxAttempts] calls and ends the way the last of them ends.  If
    that call is resolved its record is returned; if it is rejected the
    poller throws that last error itself, unchanged and unwrapped. *)
Theorem C3_poll_ends_with_last_attempt (i : string) (maxAttempts : Z) (w : World) :
  1 <= maxAttempts ->
  (forall j, Z.of_nat j < maxAttempts - 1 ->
     exists e, get_custom_hostname (authority w) (calls w + j)%nat i = Rejected e) ->
  exists w',
    fetchCloudflareStatus i maxAttempts w =
      (match get_custom_hostname (authority w)
               (calls w + Z.to_nat (maxAttempts - 1))%nat i with
       | Resolved record => Normal (Some record)
       | Rejected last => Throw last
       end, w')
    /\ calls w' = (calls w + Z.to_nat maxAttempts)%nat
    /\ clock w' = clock w + 60 * (maxAttempts - 1)
    /\ db w' = db w.
Proof.
  intros Hpos Hrej.
  destruct (fetchCloudflareStatus_attempts i maxAttempts w
              (Z.to_nat (maxAttempts - 1)))
    as [w' [Hrun [Hdb [_ [Hcalls Hclock]]]]].
  - lia.
  - intros j Hj. apply Hrej. lia.
  - left. lia.
  - exists w'. split; [exact Hrun|]. repeat split.
    + rewrite Hcalls. lia.
    + rewrite Hclock. lia.
    + exact Hdb.
Qed.

(** The budget of three against an authority that fails twice. *)
Lemma C3_witness :
  1 <= 3
  /\ (forall j, Z.of_nat j < 3 - 1 ->
        exists e, get_custom_hostname (authority (Demo.fresh 2))
                    (calls (Demo.fresh 2) + j)%nat "abc" = Rejected e)
  /\ exists w',
       fetchCloudflareStatus "abc" 3 (Demo.fresh 2) =
         (Normal (Some (mkCustomHostname "abc" "example.com" "active" "{}")), w')
       /\ calls w' = 3%nat.
Proof.
  assert (Hrej : forall j, Z.of_nat j < 3 - 1 ->
            exists e, get_custom_hostname (authority (Demo.fresh 2))
                        (calls (Demo.fresh 2) + j)%nat "abc" = Rejected e).
  { intros j Hj. exists Demo.unavailable. simpl.
    destruct j as [|[|j]]; [reflexivity | reflexivity | lia]. }
  split; [lia|]. split; [exact Hrej|].
  destruct (C3_poll_ends_with_last_attempt "abc" 3 (Demo.fresh 2)) as [w' [Hrun [Hcalls _]]];
    [lia | exact Hrej |].
  exists w'. split; [exact Hrun | exact Hcalls].
Defined.

(** C3, as the claim states it, fails.  The claim has the poller fail with
    a PollExhausted error wrapping the last failure, that is with a value of
    its own that holds the failure.  Against an authority that rejects the
    three calls with [Demo.unavailable], the poller with a budget of three
    throws [Demo.unavailable] itself: the very value a budget of one throws
    after its single attempt, and no value other than the failure. *)
Lemma C3_exhaustion_is_not_wrapped :
  answer "abc" (Demo.fresh 3) 2 = Rejected Demo.unavailable
  /\ fst (fetchCloudflareStatus "abc" 3 (Demo.fresh 3)) = Throw Demo.unavailable
  /\ fst (fetchCloudflareStatus "abc" 3 (Demo.fresh 3))
     = fst (fetchCloudflareStatus "abc" 1 (Demo.fresh 3))
  /\ ~ exists wrapper,
        wrapper <> Demo.unavailable
        /\ fst (fetchCloudflareStatus "abc" 3 (Demo.fresh 3)) = Throw wrapper.
Proof.
  split; [reflexivity|]. split; [reflexivity|]. split; [reflexivity|].
  intros [wrapper [Hother Hthrown]].
  apply Hother. vm_compute in Hthrown. inversion Hthrown. reflexivity.
Qed.

(** C10.  With a budget of zero the loop body never runs: the poller
    returns [undefined], makes no call to the authority, throws nothing and
    leaves the world as it found it. *)
Theorem C10_poll_zero_returns_undefined (i : string) (w : World) :
  fetchCloudflareStatus i 0 w = (Normal None, w).
Proof. reflexivity. Qed.

(** ** Create *)

(** C4.  When the hostname is present and the authority resolves the create
    with a record [ssl], whatever status that record carries: the response is
    a 200 whose data is [ssl] with status "pending", the table holds the row
    of [ssl]'s id with status "pending", and only the create call has been
    made; the reconciliation is handed over as a task that has not run. *)
Theorem C4_create_answers_pending (hostname : string) (ssl : CustomHostname) (w : World) :
  hostname <> "" ->
  post_custom_hostnames (authority w) (calls w) hostname = Resolved ssl ->
  exists data w',
    post_ssl (JsonBody (Some hostname)) w =
      (Normal (mkResponse 200 (DataResult data),
               Some (mkDetached (result_id ssl) hostname)), w')
    /\ result_id data = result_id ssl
    /\ result_status data = "pending"
    /\ option_map status (Sql.getById (result_id data) (db w')) = Some "pending"
    /\ option_map status (Sql.select_where_hostname (result_hostname data) (db w'))
       = Some "pending"
    /\ calls w' = S (calls w)
    /\ console w' = console w.
Proof.
  intros Hne Hres. rewrite (post_ssl_resolved hostname ssl w Hne Hres).
  eexists. eexists. split; [reflexivity|]. simpl.
  rewrite getById_insert_or_replace, select_where_hostname_insert_or_replace.
  repeat split; reflexivity.
Qed.

(** The first create of [example.com], which the authority reports as
    "initializing". *)
Lemma C4_witness :
  "example.com" <> ""
  /\ post_custom_hostnames (authority (Demo.fresh 0)) (calls (Demo.fresh 0))
       "example.com"
     = Resolved (mkCustomHostname "abc" "example.com" "initializing" "{}")
  /\ exists data w',
       fst (post_ssl (JsonBody (Some "example.com")) (Demo.fresh 0))
       = Normal (mkResponse 200 (DataResult data),
                 Some (mkDetached "abc" "example.com"))
       /\ result_status data = "pending"
       /\ w' = snd (post_ssl (JsonBody (Some "example.com")) (Demo.fresh 0))
       /\ option_map status (Sql.getById "abc" (db w')) = Some "pending".
Proof.
  split; [discriminate|]. split; [reflexivity|].
  destruct (C4_create_answers_pending "example.com"
              (mkCustomHostname "abc" "example.com" "initializing" "{}")
              (Demo.fresh 0))
    as [data [w' [Hrun [Hid [Hstatus [Hrow _]]]]]];
    [discriminate | reflexivity |].
  exists data, w'. rewrite Hrun. simpl.
  repeat split; try assumption. rewrite Hid in Hrow. exact Hrow.
Defined.

(** ** Delete *)

(** C8.  When the authority resolves the delete call, whatever body it
    sends back, [DELETE /ssl/:id] answers 200 with that body and the table
    holds no row of the id afterwards. *)
Theorem C8_delete_removes_local_row (i body : string) (w : World) :
  delete_custom_hostname (authority w) (calls w) i = Resolved body ->
  exists w',
    delete_ssl i w = (Normal (mkResponse 200 (DataRaw body)), w')
    /\ Sql.getById i (db w') = None
    /\ (forall r, In r (db w') -> id r <> i).
Proof.
  intros Hres. rewrite (delete_ssl_resolved i body w Hres).
  eexists. split; [reflexivity|]. simpl.
  assert (Hnone := getById_delete_where_id i (db w)).
  split; [exact Hnone | apply getById_none; exact Hnone].
Qed.

(** Deleting [abc] when the authority only reports a pending deletion. *)
Lemma C8_witness :
  delete_custom_hostname (authority (Demo.created 0)) (calls (Demo.created 0)) "abc"
  = Resolved "{ status: pending_deletion }"
  /\ Sql.getById "abc" (db (Demo.created 0))
     = Some (mkRow "abc" "example.com" "pending" 100 100)
  /\ exists w',
       delete_ssl "abc" (Demo.created 0)
       = (Normal (mkResponse 200 (DataRaw "{ status: pending_deletion }")), w')
       /\ Sql.getById "abc" (db w') = None.
Proof.
  split; [reflexivity|]. split; [reflexivity|].
  destruct (C8_delete_removes_local_row "abc" "{ status: pending_deletion }"
              (Demo.created 0)) as [w' [Hrun [Hnone _]]]; [reflexivity|].
  exists w'. split; [exact Hrun | exact Hnone].
Defined.

(** C5, as the claim states it, fails: there is no world, id and detached
    task such that the id is absent after the Delete and present again after
    the task has run. *)
Lemma C5_no_resurrection :
  ~ exists (w : World) (i : string) (task : Detached),
      Sql.getById i (db (step (Delete i) w)) = None
      /\ Sql.getById i (db (step (Reconcile task) (step (Delete i) w))) <> None.
Proof.
  intros [w [i [task [Hnone Hsome]]]]. apply Hsome. simpl.
  apply reconcile_keeps_absent. exact Hnone.
Qed.

(** C5, amended.  When a Delete has removed the row of an id, the detached
    reconciliations that run afterwards, however many and for whichever id,
    write with [UPDATE ... WHERE id = ?] only, and the row stays absent. *)
Theorem C5_reconcile_after_delete_keeps_absent
    (i body : string) (tasks : list Detached) (w : World) :
  delete_custom_hostname (authority w) (calls w) i = Resolved body ->
  Sql.getById i (db (run (Delete i :: map Reconcile tasks) w)) = None.
Proof.
  intros Hres. simpl. apply reconciles_keep_absent.
  rewrite (delete_ssl_resolved i body w Hres). simpl.
  apply getById_delete_where_id.
Qed.

(** Create, delete, and then the reconciliation the create left behind. *)
Lemma C5_witness :
  delete_custom_hostname (authority (Demo.created 1)) (calls (Demo.created 1)) "abc"
  = Resolved "{ status: pending_deletion }"
  /\ Sql.getById "abc" (db (Demo.created 1))
     = Some (mkRow "abc" "example.com" "pending" 100 100)
  /\ Sql.getById "abc"
       (db (run (Delete "abc" :: map Reconcile [mkDetached "abc" "example.com"])
                (Demo.created 1)))
     = None.
Proof.
  split; [reflexivity|]. split; [reflexivity|].
  apply (C5_reconcile_after_delete_keeps_absent "abc"
           "{ status: pending_deletion }").
  reflexivity.
Defined.

(** ** Read *)


(** ** Recheck *)



(** ** One row per hostname *)



(** * Further properties of the service *)

(** ** Columns that only [INSERT OR REPLACE] can change *)

Section RowsFrom.

Import Sql.

Lemma rows_from_refl (t : Table) : rows_from t t.
Proof. intros r Hin. exists r. auto. Qed.

Lemma rows_from_trans (t1 t2 t3 : Table) :
  rows_from t1 t2 -> rows_from t2 t3 -> rows_from t1 t3.
Proof.
  intros H12 H23 r3 Hin3.
  destruct (H23 r3 Hin3) as [r2 [Hin2 [Hi [Hh Hc]]]].
  destruct (H12 r2 Hin2) as [r1 [Hin1 [Hi' [Hh' Hc']]]].
  exists r1. repeat split; congruence.
Qed.

Lemma rows_from_update_status_stamped s i now t :
  rows_from t (update_status_stamped s i now t).
Proof.
  intros r' Hin. unfold update_status_stamped in Hin.
  apply in_map_iff in Hin. destruct Hin as [r [Heq Hin]].
  exists r. split; [exact Hin|]. subst r'.
  destruct (String.eqb (id r) i); auto.
Qed.

Lemma rows_from_update_status s i t : rows_from t (update_status s i t).
Proof.
  intros r' Hin. unfold update_status in Hin.
  apply in_map_iff in Hin. destruct Hin as [r [Heq Hin]].
  exists r. split; [exact Hin|]. subst r'.
  destruct (String.eqb (id r) i); auto.
Qed.

Lemma rows_from_delete_where_id i t : rows_from t (delete_where_id i t).
Proof.
  intros r' Hin. apply filter_In in Hin. exists r'. tauto.
Qed.

Lemma update_status_absent s i t :
  getById i t = None -> update_status s i t = t.
Proof.
  intros Hnone. unfold update_status.
  rewrite <- (map_id t) at 2. apply map_ext_in. intros r Hin.
  destruct (String.eqb_spec (id r) i) as [Heq|_]; [|reflexivity].
  exfalso. exact (proj1 (getById_none i t) Hnone r Hin Heq).
Qed.

(** Under the unique index two stored rows of one hostname are one row. *)
Lemma hostname_determines_row (t : Table) :
  NoDup (map hostname t) ->
  forall a b, In a t -> In b t -> hostname a = hostname b -> a = b.
Proof.
  induction t as [|x t IH]; simpl; intros Hnd a b Ha Hb Heq; [contradiction|].
  inversion Hnd as [|? ? Hnotin Hnd']; subst.
  destruct Ha as [Ha|Ha], Hb as [Hb|Hb].
  - congruence.
  - subst x. exfalso. apply Hnotin. rewrite Heq. apply in_map. exact Hb.
  - subst x. exfalso. apply Hnotin. rewrite <- Heq. apply in_map. exact Ha.
  - apply IH; assumption.
Qed.

Lemma getById_in (i : string) (t : Table) (r : Row) :
  getById i t = Some r -> In r t /\ id r = i.
Proof.
  unfold getById. intros Hfind. apply find_some in Hfind.
  destruct Hfind as [Hin Heq]. split; [exact Hin | apply String.eqb_eq; exact Heq].
Qed.

Lemma id_determines_row (t : Table) :
  NoDup (map id t) ->
  forall a b, In a t -> In b t -> id a = id b -> a = b.
Proof.
  induction t as [|x t IH]; simpl; intros Hnd a b Ha Hb Heq; [contradiction|].
  inversion Hnd as [|? ? Hnotin Hnd']; subst.
  destruct Ha as [Ha|Ha], Hb as [Hb|Hb].
  - congruence.
  - subst x. exfalso. apply Hnotin. rewrite Heq. apply in_map. exact Hb.
  - subst x. exfalso. apply Hnotin. rewrite <- Heq. apply in_map. exact Ha.
  - apply IH; assumption.
Qed.

Lemma in_insert_or_replace (i h s : string) (now : Z) (t : Table) (r : Row) :
  In r (insert_or_replace i h s now t) <->
  r = mkRow i h s now now \/ (In r t /\ id r <> i /\ hostname r <> h).
Proof.
  unfold insert_or_replace. rewrite in_app_iff, filter_In. simpl.
  unfold conflicts. rewrite negb_true_iff, orb_false_iff, !String.eqb_neq.
  intuition congruence.
Qed.

End RowsFrom.

(** ** Create *)



(** X2.  What a successful create leaves in the table: the new row, created
    and updated "now" with status "pending", and every old row that shares
    neither the id nor the hostname of the record the authority returned.
    Old rows under that id or that hostname are gone. *)
Theorem X2_create_replaces_conflicting_rows
    (requested : string) (ssl : CustomHostname) (w : World) :
  requested <> "" ->
  post_custom_hostnames (authority w) (calls w) requested = Resolved ssl ->
  forall r,
    In r (db (snd (post_ssl (JsonBody (Some requested)) w))) <->
    r = mkRow (result_id ssl) (result_hostname ssl) "pending" (clock w) (clock w)
    \/ (In r (db w) /\ id r <> result_id ssl
        /\ hostname r <> result_hostname ssl).
Proof.
  intros Hne Hres r. rewrite (post_ssl_resolved requested ssl w Hne Hres). simpl.
  apply in_insert_or_replace.
Qed.

(** The second create of [example.com], registered under [xyz], drops the
    row stored under [abc]. *)
Lemma X2_witness :
  "example.com" <> ""
  /\ post_custom_hostnames (authority Samples.renumbered)
       (calls Samples.renumbered) "example.com"
     = Resolved (mkCustomHostname "xyz" "example.com" "initializing" "{}")
  /\ In (mkRow "abc" "example.com" "pending" 100 100) (db Samples.renumbered)
  /\ ~ In (mkRow "abc" "example.com" "pending" 100 100)
         (db (snd (post_ssl (JsonBody (Some "example.com")) Samples.renumbered)))
  /\ In (mkRow "xyz" "example.com" "pending" 100 100)
        (db (snd (post_ssl (JsonBody (Some "example.com")) Samples.renumbered))).
Proof.
  assert (Hiff := X2_create_replaces_conflicting_rows "example.com"
            (mkCustomHostname "xyz" "example.com" "initializing" "{}")
            Samples.renumbered ltac:(discriminate) eq_refl).
  split; [discriminate|]. split; [reflexivity|]. split; [left; reflexivity|].
  split.
  - intros Hin. apply Hiff in Hin. destruct Hin as [Heq|[_ [_ Hhost]]].
    + discriminate.
    + apply Hhost. reflexivity.
  - apply Hiff. left. reflexivity.
Defined.

(** X3.  A hostname stored under one id and created again under another:
    the create removes the old id, and the reconciliation that the earlier
    create left behind for the old id then writes nothing at all. *)
Theorem X3_stale_reconciliation_writes_nothing
    (requested : string) (ssl : CustomHostname) (old : Row) (w : World) :
  requested <> "" ->
  post_custom_hostnames (authority w) (calls w) requested = Resolved ssl ->
  Sql.constraints (db w) ->
  Sql.select_where_hostname (result_hostname ssl) (db w) = Some old ->
  id old <> result_id ssl ->
  let w1 := snd (post_ssl (JsonBody (Some requested)) w) in
  Sql.getById (id old) (db w1) = None
  /\ Sql.select_where_hostname (result_hostname ssl) (db w1)
     = Some (mkRow (result_id ssl) (result_hostname ssl) "pending"
                   (clock w) (clock w))
  /\ forall logged_as,
       db (snd (reconcile (mkDetached (id old) logged_as) w1)) = db w1.
Proof.
  intros Hne Hres [Hids _] Hold Hother w1.
  assert (Hnone : Sql.getById (id old) (db w1) = None).
  { apply getById_none. intros r Hin Hid. subst w1.
    rewrite (post_ssl_resolved requested ssl w Hne Hres) in Hin. simpl in Hin.
    apply in_insert_or_replace in Hin.
    destruct Hin as [Heq|[Hin [_ Hhost]]].
    - subst r. simpl in Hid. congruence.
    - destruct (select_where_hostname_in _ _ _ Hold) as [Hin_old Hhost_old].
      assert (r = old) by (apply (id_determines_row (db w)); assumption).
      subst r. contradiction. }
  split; [exact Hnone|]. split.
  - subst w1. rewrite (post_ssl_resolved requested ssl w Hne Hres). simpl.
    apply select_where_hostname_insert_or_replace.
  - intros logged_as.
    destruct (reconcile_effect (mkDetached (id old) logged_as) w1)
      as [_ [Hdb|[s [now Hdb]]]]; rewrite Hdb; [reflexivity|].
    simpl. apply update_status_stamped_absent. exact Hnone.
Qed.

(** [example.com], stored under [abc], is created again under [xyz]; the
    reconciliation of [abc] comes afterwards. *)
Lemma X3_witness :
  let w1 := snd (post_ssl (JsonBody (Some "example.com")) Samples.renumbered) in
  Sql.getById "abc" (db Samples.renumbered)
  = Some (mkRow "abc" "example.com" "pending" 100 100)
  /\ Sql.getById "abc" (db w1) = None
  /\ db (snd (reconcile (mkDetached "abc" "example.com") w1)) = db w1.
Proof.
  intros w1. split; [reflexivity|].
  destruct (X3_stale_reconciliation_writes_nothing "example.com"
              (mkCustomHostname "xyz" "example.com" "initializing" "{}")
              (mkRow "abc" "example.com" "pending" 100 100)
              Samples.renumbered) as [Hnone [_ Hquiet]].
  - discriminate.
  - reflexivity.
  - split; repeat constructor; simpl; tauto.
  - reflexivity.
  - discriminate.
  - split; [exact Hnone | apply Hquiet].
Defined.

(** ** The poller within its budget *)

Lemma fetch_loop_bounds (hostnameOrId : string) (retries : Z) (fuel : nat) :
  forall (i : Z) (w : World),
    0 <= i ->
    (calls w <= calls (snd (fetch_loop fuel hostnameOrId retries i w))
     <= calls w + Z.to_nat (retries - i))%nat
    /\ clock w <= clock (snd (fetch_loop fuel hostnameOrId retries i w))
       <= clock w + Z.max 0 (retries - 1 - i) * 60
    /\ (fst (fetch_loop fuel hostnameOrId retries i w) = Normal None ->
        retries <= i).
Proof.
  induction fuel as [|fuel IH]; intros i w Hi; simpl.
  - repeat split; try lia. intros Habs. discriminate Habs.
  - destruct (Z.ltb_spec i retries) as [Hlt|Hge]; [|simpl; repeat split; lia].
    js_unfold. simpl.
    destruct (get_custom_hostname (authority w) (calls w) hostnameOrId) as [r|e];
      simpl; [repeat split; try lia; intros Habs; discriminate Habs|].
    destruct (Z.eqb_spec i (retries - 1)) as [Hlast|Hmore]; simpl;
      [repeat split; try lia; intros Habs; discriminate Habs|].
    match goal with
    | |- context [fetch_loop fuel hostnameOrId retries (i + 1) ?w1] =>
        destruct (IH (i + 1) w1) as [Hcalls [Hclock Hnone]]; [lia|]
    end.
    cbn [calls clock] in Hcalls, Hclock.
    repeat split; try lia. intros Hundef. apply Hnone in Hundef. lia.
Qed.

(** X4.  The poller accepts the first answer it gets: when the [k] first
    calls are rejected and the next one, still within the budget, is resolved,
    it returns that record whatever its status, after [k + 1] calls and [k]
    sleeps of sixty seconds, and makes no further call. *)
Theorem X4_poll_returns_first_answer
    (i : string) (retries : Z) (k : nat) (record : CustomHostname) (w : World) :
  Z.of_nat k < retries ->
  (forall j, (j < k)%nat ->
     exists e, get_custom_hostname (authority w) (calls w + j)%nat i = Rejected e) ->
  get_custom_hostname (authority w) (calls w + k)%nat i = Resolved record ->
  exists w',
    fetchCloudflareStatus i retries w = (Normal (Some record), w')
    /\ calls w' = (calls w + S k)%nat
    /\ clock w' = clock w + 60 * Z.of_nat k
    /\ db w' = db w.
Proof.
  intros Hk Hrej Hres.
  destruct (fetchCloudflareStatus_attempts i retries w k)
    as [w' [Hrun [Hdb [_ [Hcalls Hclock]]]]]; [lia | exact Hrej | eauto |].
  rewrite Hres in Hrun. exists w'. auto.
Qed.

(** A budget of three against an authority that fails once. *)
Lemma X4_witness :
  exists w',
    fetchCloudflareStatus "abc" 3 (Demo.fresh 1)
    = (Normal (Some (mkCustomHostname "abc" "example.com" "active" "{}")), w')
    /\ calls w' = 2%nat
    /\ clock w' = 160.
Proof.
  destruct (X4_poll_returns_first_answer "abc" 3 1
              (mkCustomHostname "abc" "example.com" "active" "{}")
              (Demo.fresh 1))
    as [w' [Hrun [Hcalls [Hclock _]]]].
  - lia.
  - intros j Hj. exists Demo.unavailable.
    destruct j as [|j]; [reflexivity | lia].
  - reflexivity.
  - exists w'. auto.
Defined.

(** X5.  Whatever the authority does, the poller ends; it makes at most
    [retries] calls, sleeps at most [retries - 1] times sixty seconds, and
    leaves the table alone.  It returns [undefined] exactly when the budget
    is zero or negative. *)
Theorem X5_poll_stays_within_budget (i : string) (retries : Z) (w : World) :
  exists completion w',
    fetchCloudflareStatus i retries w = (completion, w')
    /\ completion <> Fuel
    /\ db w' = db w
    /\ (calls w <= calls w' <= calls w + Z.to_nat retries)%nat
    /\ clock w <= clock w' <= clock w + 60 * Z.max 0 (retries - 1)
    /\ (completion = Normal None <-> retries <= 0).
Proof.
  destruct (fetchCloudflareStatus i retries w) as [completion w'] eqn:Hrun.
  exists completion, w'. split; [reflexivity|].
  assert (Hfuel := fetchCloudflareStatus_terminates i retries w).
  assert (Hframe := fetchCloudflareStatus_frame i retries w).
  assert (Hbounds :=
            fetch_loop_bounds i retries (S (Z.to_nat retries)) 0 w (Z.le_refl 0)).
  fold (fetchCloudflareStatus i retries) in Hbounds.
  rewrite Hrun in Hfuel, Hframe, Hbounds. simpl in Hfuel, Hframe, Hbounds.
  destruct Hframe as [Hdb _]. destruct Hbounds as [Hcalls [Hclock Hnone]].
  rewrite Z.sub_0_r in Hcalls, Hclock.
  repeat split; try assumption; try lia.
  intros Hle. unfold fetchCloudflareStatus in Hrun. simpl in Hrun.
  replace (0 <? retries) with false in Hrun
    by (symmetry; apply Z.ltb_ge; exact Hle).
  inversion Hrun. reflexivity.
Qed.

(** ** The detached reconciliation *)

Lemma reconcile_resolved (task : Detached) (k : nat) (updated : CustomHostname)
    (w : World) :
  (k < 3)%nat ->
  (forall j, (j < k)%nat ->
     exists e, get_custom_hostname (authority w) (calls w + j)%nat (task_id task)
               = Rejected e) ->
  get_custom_hostname (authority w) (calls w + k)%nat (task_id task)
  = Resolved updated ->
  exists w',
    reconcile task w = (Normal tt, w')
    /\ db w' = Sql.update_status_stamped (result_status updated) (task_id task)
                 (clock w + 60 * Z.of_nat k) (db w)
    /\ calls w' = (calls w + S k)%nat
    /\ clock w' = clock w + 60 * Z.of_nat k.
Proof.
  intros Hk Hrej Hres.
  destruct (fetchCloudflareStatus_attempts (task_id task) 3 w k)
    as [w1 [Hrun [Hdb [_ [Hcalls Hclock]]]]]; [lia | exact Hrej | eauto |].
  rewrite Hres in Hrun. unfold reconcile. js_unfold. rewrite Hrun. simpl.
  eexists. split; [reflexivity|]. simpl. rewrite Hdb, Hclock. auto.
Qed.

(** X6.  Fire and forget: when the three calls of a detached
    reconciliation are all rejected, the task still ends normally; the table
    is as it was, and the last line on the console is the error line with the
    message of the last failure. *)
Theorem X6_reconcile_only_logs_exhaustion (task : Detached) (w : World) :
  (forall j, (j < 3)%nat ->
     exists e, get_custom_hostname (authority w) (calls w + j)%nat (task_id task)
               = Rejected e) ->
  exists last_error w',
    get_custom_hostname (authority w) (calls w + 2)%nat (task_id task)
    = Rejected last_error
    /\ reconcile task w = (Normal tt, w')
    /\ db w' = db w
    /\ calls w' = (calls w + 3)%nat
    /\ clock w' = clock w + 120
    /\ last (console w') (Log "" "")
       = Error (task_hostname task) (message last_error).
Proof.
  intros Hrej.
  destruct (fetchCloudflareStatus_attempts (task_id task) 3 w 2)
    as [w1 [Hrun [Hdb [_ [Hcalls Hclock]]]]];
    [lia | intros j Hj; apply Hrej; lia | left; lia |].
  destruct (Hrej 2%nat) as [last_error Hlast]; [lia|].
  rewrite Hlast in Hrun. exists last_error.
  unfold reconcile. js_unfold. rewrite Hrun. simpl.
  eexists. split; [exact Hlast|]. split; [reflexivity|]. simpl.
  repeat split; try assumption. apply last_last.
Qed.

(** The reconciliation of [abc] during an outage of the authority. *)
Lemma X6_witness :
  exists w',
    reconcile (mkDetached "abc" "example.com") (Samples.outage (Demo.created 0))
    = (Normal tt, w')
    /\ db w' = db (Demo.created 0)
    /\ last (console w') (Log "" "")
       = Error "example.com" "Request failed with status code 503".
Proof.
  destruct (X6_reconcile_only_logs_exhaustion (mkDetached "abc" "example.com")
              (Samples.outage (Demo.created 0)))
    as [last_error [w' [Hlast [Hrun [Hdb [_ [_ Hlog]]]]]]].
  - intros j Hj. exists Demo.unavailable. reflexivity.
  - exists w'. split; [exact Hrun|]. split; [exact Hdb|].
    rewrite Hlog. simpl in Hlast. injection Hlast as Hlast. rewrite <- Hlast.
    reflexivity.
Defined.

(** ** Create, reconcile, read *)

Lemma get_ssl_local (h : string) (row : Row) (w : World) :
  Sql.select_where_hostname h (db w) = Some row ->
  get_ssl h w = (Normal (mkResponse 200 (DataRow row)), w).
Proof.
  intros Hlocal. unfold get_ssl. js_unfold. rewrite Hlocal. reflexivity.
Qed.

(** X7.  End to end.  A hostname [h] is created and the authority echoes it
    in its record.  A read right after the create is served from the table
    with status "pending".  Once the detached reconciliation has obtained a
    record, at its attempt [k + 1], a read is served from the table with the
    status of that record, with [created_at] from the create and
    [updated_at] from the reconciliation; neither read calls the
    authority. *)
Theorem X7_create_reconcile_read
    (h : string) (ssl updated : CustomHostname) (k : nat) (w : World) :
  h <> "" ->
  post_custom_hostnames (authority w) (calls w) h = Resolved ssl ->
  result_hostname ssl = h ->
  (k < 3)%nat ->
  (forall j, (j < k)%nat ->
     exists e, get_custom_hostname (authority w) (S (calls w) + j)%nat
                 (result_id ssl) = Rejected e) ->
  get_custom_hostname (authority w) (S (calls w) + k)%nat (result_id ssl)
  = Resolved updated ->
  let w1 := snd (post_ssl (JsonBody (Some h)) w) in
  let w2 := snd (reconcile (mkDetached (result_id ssl) h) w1) in
  get_ssl h w1
  = (Normal (mkResponse 200
       (DataRow (mkRow (result_id ssl) h "pending" (clock w) (clock w)))), w1)
  /\ get_ssl h w2
     = (Normal (mkResponse 200
          (DataRow (mkRow (result_id ssl) h (result_status updated) (clock w)
                          (clock w + 60 * Z.of_nat k)))), w2).
Proof.
  intros Hne Hres Hecho Hk Hrej Hget w1 w2. subst w2 w1.
  rewrite (post_ssl_resolved h ssl w Hne Hres). simpl. rewrite Hecho.
  match goal with
  | |- context [reconcile ?task ?w1] =>
      destruct (reconcile_resolved task k updated w1)
        as [w2 [Hrun [Hdb _]]]; [exact Hk | exact Hrej | exact Hget |];
      rewrite Hrun
  end.
  simpl in *. split.
  - apply get_ssl_local. simpl. apply select_where_hostname_insert_or_replace.
  - apply get_ssl_local. rewrite Hdb.
    rewrite select_where_hostname_update_status_stamped,
      select_where_hostname_insert_or_replace. simpl.
    rewrite String.eqb_refl. reflexivity.
Qed.

(** The scenario of [example.com]: created as [abc], found active by the
    second attempt of the reconciliation. *)
Lemma X7_witness :
  let w1 := snd (post_ssl (JsonBody (Some "example.com")) (Demo.fresh 2)) in
  let w2 := snd (reconcile (mkDetached "abc" "example.com") w1) in
  fst (get_ssl "example.com" w1)
  = Normal (mkResponse 200 (DataRow (mkRow "abc" "example.com" "pending" 100 100)))
  /\ fst (get_ssl "example.com" w2)
     = Normal (mkResponse 200 (DataRow (mkRow "abc" "example.com" "active" 100 160))).
Proof.
  intros w1 w2.
  destruct (X7_create_reconcile_read "example.com"
              (mkCustomHostname "abc" "example.com" "initializing" "{}")
              (mkCustomHostname "abc" "example.com" "active" "{}")
              1 (Demo.fresh 2)) as [Hfirst Hsecond].
  - discriminate.
  - reflexivity.
  - reflexivity.
  - lia.
  - intros j Hj. exists Demo.unavailable.
    destruct j as [|j]; [reflexivity | lia].
  - reflexivity.
  - split; [exact (f_equal fst Hfirst) | exact (f_equal fst Hsecond)].
Defined.

(** ** Update settings *)

Section StatusOnly.

Import Sql.

Lemma map_created_at_update_status s i t :
  map created_at (update_status s i t) = map created_at t.
Proof.
  unfold update_status. rewrite map_map. apply map_ext.
  intros r. destruct (String.eqb (id r) i); reflexivity.
Qed.

Lemma getById_update_status s i t :
  getById i (update_status s i t) =
  option_map (fun r => mkRow (id r) (hostname r) s (created_at r) (updated_at r))
             (getById i t).
Proof.
  unfold getById, update_status.
  induction t as [|x t IH]; simpl; [reflexivity|].
  destruct (String.eqb (id x) i) eqn:E; simpl; rewrite E; [reflexivity|].
  exact IH.
Qed.

Lemma in_update_status_other s i t r :
  In r t -> id r <> i -> In r (update_status s i t).
Proof.
  intros Hin Hne. unfold update_status. apply in_map_iff. exists r.
  split; [|exact Hin].
  destruct (String.eqb_spec (id r) i); [contradiction | reflexivity].
Qed.

End StatusOnly.

(** X8.  [PUT /ssl/:id] always answers, and whatever happens it neither
    adds nor removes a row nor changes an id, a hostname, a [created_at] or
    an [updated_at].  A request without a parsed body is answered 500 with
    the message of the destructuring error, without any call to the authority
    and with the world as it was.  A request with a parsed body makes exactly
    one call: when it is resolved the answer is 200 with the authority's
    record and the row of the id, if there is one, takes the status of that
    record while every other row stays as it is; when it is rejected the
    answer is 500 with the error's payload and the table is untouched. *)
Theorem X8_put_writes_the_status_only (i : string) (body : RequestBody) (w : World) :
  exists response w',
    put_ssl i body w = (Normal response, w')
    /\ map id (db w') = map id (db w)
    /\ map hostname (db w') = map hostname (db w)
    /\ map created_at (db w') = map created_at (db w)
    /\ map updated_at (db w') = map updated_at (db w)
    /\ match body with
       | NoBody =>
           response =
             mkResponse 500
               (ErrorBody "Cannot destructure property 'sslSettings' of 'req.body' as it is undefined.")
           /\ w' = w
       | JsonBody sslSettings =>
           calls w' = S (calls w)
           /\ match patch_custom_hostname (authority w) (calls w) i sslSettings with
              | Resolved updated =>
                  response = mkResponse 200 (DataResult updated)
                  /\ option_map status (Sql.getById i (db w'))
                     = option_map (fun _ => result_status updated)
                                  (Sql.getById i (db w))
                  /\ (forall r, In r (db w) -> id r <> i -> In r (db w'))
              | Rejected error =>
                  response = mkResponse 500 (ErrorBody (error_payload error))
                  /\ db w' = db w
              end
       end.
Proof.
  unfold put_ssl. js_unfold. destruct body as [|sslSettings]; simpl.
  - eexists. eexists. split; [reflexivity|]. repeat split.
  - destruct (patch_custom_hostname (authority w) (calls w) i sslSettings)
      as [updated|error]; simpl;
      eexists; eexists; (split; [reflexivity|]); simpl.
    + rewrite map_id_update_status, map_hostname_update_status,
        map_created_at_update_status, map_updated_at_update_status.
      repeat split.
      * rewrite getById_update_status. destruct (Sql.getById i (db w)); reflexivity.
      * intros r Hin Hne. apply in_update_status_other; assumption.
    + repeat split.
Qed.

(** X9.  [PUT /ssl/:id] does not look the id up: for an id the table does
    not hold, a resolved patch is answered with 200 and the authority's
    record, and nothing is written. *)
Theorem X9_put_unknown_id_writes_nothing
    (i : string) (sslSettings : option string) (updated : CustomHostname)
    (w : World) :
  Sql.getById i (db w) = None ->
  patch_custom_hostname (authority w) (calls w) i sslSettings = Resolved updated ->
  exists w',
    put_ssl i (JsonBody sslSettings) w
    = (Normal (mkResponse 200 (DataResult updated)), w')
    /\ db w' = db w.
Proof.
  intros Hnone Hres. unfold put_ssl. js_unfold. simpl. rewrite Hres. simpl.
  eexists. split; [reflexivity|]. simpl. apply update_status_absent. exact Hnone.
Qed.

(** Settings for an id that was never created here. *)
Lemma X9_witness :
  Sql.getById "nowhere" (db (Demo.created 0)) = None
  /\ exists w',
       put_ssl "nowhere" (JsonBody (Some "{ http2: off }")) (Demo.created 0)
       = (Normal (mkResponse 200
            (DataResult (mkCustomHostname "nowhere" "example.com" "active" "{}"))),
          w')
       /\ db w' = db (Demo.created 0).
Proof.
  split; [reflexivity|].
  apply (X9_put_unknown_id_writes_nothing "nowhere" (Some "{ http2: off }")
           (mkCustomHostname "nowhere" "example.com" "active" "{}")
           (Demo.created 0)); reflexivity.
Defined.

(** ** Delete *)

(** X10.  [DELETE /ssl/:id] always answers after exactly one call to the
    authority.  When the call is resolved the table keeps exactly the rows of
    the other ids, unchanged; when it is rejected the answer is 500 with the
    error's payload and the local row is kept. *)
Theorem X10_delete_removes_one_id_or_nothing (i : string) (w : World) :
  exists response w',
    delete_ssl i w = (Normal response, w')
    /\ calls w' = S (calls w)
    /\ match delete_custom_hostname (authority w) (calls w) i with
       | Resolved body =>
           response = mkResponse 200 (DataRaw body)
           /\ (forall r, In r (db w') <-> In r (db w) /\ id r <> i)
       | Rejected error =>
           response = mkResponse 500 (ErrorBody (error_payload error))
           /\ db w' = db w
       end.
Proof.
  unfold delete_ssl. js_unfold.
  destruct (delete_custom_hostname (authority w) (calls w) i) as [body|error];
    simpl; eexists; eexists; (split; [reflexivity|]); simpl.
  - split; [reflexivity|]. split; [reflexivity|].
    intros r. unfold Sql.delete_where_id. rewrite filter_In, negb_true_iff.
    rewrite String.eqb_neq. reflexivity.
  - repeat split.
Qed.

(** X11.  Once the row of a hostname has been deleted by its id, a read of
    that hostname is no longer served from the table: it goes to the
    authority with one filtered lookup and answers with what the authority
    says. *)
Theorem X11_read_after_delete_asks_the_authority
    (h body : string) (row : Row) (w : World) :
  Sql.constraints (db w) ->
  Sql.select_where_hostname h (db w) = Some row ->
  delete_custom_hostname (authority w) (calls w) (id row) = Resolved body ->
  let w1 := snd (delete_ssl (id row) w) in
  Sql.select_where_hostname h (db w1) = None
  /\ exists response w2,
       get_ssl h w1 = (Normal response, w2)
       /\ calls w2 = S (S (calls w))
       /\ db w2 = db w1
       /\ response =
            match get_custom_hostnames (authority w) (S (calls w)) h with
            | Resolved (Some (first :: _)) => mkResponse 200 (DataResult first)
            | Resolved _ => mkResponse 404 (Failure "Not found")
            | Rejected error => mkResponse 500 (ErrorBody (error_payload error))
            end.
Proof.
  intros [_ Hhosts] Hlocal Hres w1. subst w1.
  rewrite (delete_ssl_resolved (id row) body w Hres). simpl.
  destruct (select_where_hostname_in h (db w) row Hlocal) as [Hin Hhost].
  assert (Hnone : Sql.select_where_hostname h
                    (Sql.delete_where_id (id row) (db w)) = None).
  { destruct (Sql.select_where_hostname h (Sql.delete_where_id (id row) (db w)))
      as [other|] eqn:Hother; [exfalso | reflexivity].
    destruct (select_where_hostname_in _ _ _ Hother) as [Hin' Hhost'].
    apply filter_In in Hin'. destruct Hin' as [Hin' Hkeep].
    assert (other = row)
      by (apply (hostname_determines_row (db w)); congruence).
    subst other. rewrite String.eqb_refl in Hkeep. discriminate. }
  split; [exact Hnone|].
  unfold get_ssl. js_unfold. simpl. rewrite Hnone. simpl.
  destruct (get_custom_hostnames (authority w) (S (calls w)) h)
    as [[[|first rest]|]|error]; simpl;
    eexists; eexists; (split; [reflexivity|]); simpl; auto.
Qed.

(** [example.com] is deleted by its id and read again. *)
Lemma X11_witness :
  let w1 := snd (delete_ssl "abc" (Demo.created 0)) in
  fst (get_ssl "example.com" (Demo.created 0))
  = Normal (mkResponse 200 (DataRow (mkRow "abc" "example.com" "pending" 100 100)))
  /\ Sql.select_where_hostname "example.com" (db w1) = None
  /\ fst (get_ssl "example.com" w1) = Normal (mkResponse 404 (Failure "Not found")).
Proof.
  intros w1. split; [reflexivity|].
  destruct (X11_read_after_delete_asks_the_authority "example.com"
              "{ status: pending_deletion }"
              (mkRow "abc" "example.com" "pending" 100 100) (Demo.created 0))
    as [Hnone [response [w2 [Hrun [_ [_ Hresponse]]]]]].
  - split; repeat constructor; simpl; tauto.
  - reflexivity.
  - reflexivity.
  - split; [exact Hnone|].
    change (fst (get_ssl "example.com"
                   (snd (delete_ssl (id (mkRow "abc" "example.com" "pending" 100 100))
                           (Demo.created 0))))
            = Normal (mkResponse 404 (Failure "Not found"))).
    rewrite Hrun, Hresponse. reflexivity.
Defined.

(** ** The listing *)

Section Listing.

Import Sql.

Lemma insert_desc_permutation (r : Row) (rows : list Row) :
  Permutation (insert_desc r rows) (r :: rows).
Proof.
  induction rows as [|x rows IH]; simpl; [apply Permutation_refl|].
  destruct (created_at x <? created_at r); [apply Permutation_refl|].
  apply Permutation_trans with (x :: r :: rows).
  - apply perm_skip. exact IH.
  - apply perm_swap.
Qed.

Lemma insert_desc_sorted (r : Row) (rows : list Row) :
  StronglySorted newer_or_same rows ->
  StronglySorted newer_or_same (insert_desc r rows).
Proof.
  induction rows as [|x rows IH]; simpl; intros Hsorted.
  - constructor; constructor.
  - inversion Hsorted as [|? ? Hrest Hx]; subst.
    destruct (Z.ltb_spec (created_at x) (created_at r)) as [Hlt|Hge].
    + constructor; [exact Hsorted|].
      constructor; [unfold newer_or_same; lia|].
      rewrite Forall_forall in *. intros y Hy.
      specialize (Hx y Hy). unfold newer_or_same in *. lia.
    + constructor; [apply IH; exact Hrest|].
      rewrite Forall_forall in *. intros y Hy.
      apply in_insert_desc in Hy. destruct Hy as [Heq|Hy].
      * subst y. unfold newer_or_same. lia.
      * apply Hx. exact Hy.
Qed.

Lemma select_order_by_created_at_desc_sorted (t : Table) :
  StronglySorted newer_or_same (select_order_by_created_at_desc t)
  /\ Permutation (select_order_by_created_at_desc t) t.
Proof.
  unfold select_order_by_created_at_desc.
  induction t as [|r t [IHs IHp]]; simpl; [split; constructor|]. split.
  - apply insert_desc_sorted. exact IHs.
  - apply Permutation_trans with (r :: fold_right insert_desc [] t).
    + apply insert_desc_permutation.
    + apply perm_skip. exact IHp.
Qed.

End Listing.

(** X12.  [GET /ssl] answers 200 with the rows of the table, each exactly
    once, ordered so that no row stands before one created later; it calls
    nobody and changes nothing. *)
Theorem X12_list_is_the_table_newest_first (w : World) :
  exists rows,
    list_ssl w = (Normal (mkResponse 200 (DataRows rows)), w)
    /\ Permutation rows (db w)
    /\ StronglySorted newer_or_same rows.
Proof.
  eexists. split; [reflexivity|].
  destruct (select_order_by_created_at_desc_sorted (db w)) as [Hs Hp].
  split; assumption.
Qed.

(** ** Every request is answered *)

(** X13.  No handler lets an exception escape and none is cut short by the
    embedding: each request gets a response with one of the status codes of
    its route, whatever [req.body] a [POST] or [PUT] brings; the recheck
    never answers 200 without a record, and the detached reconciliation
    always ends normally. *)
Theorem X13_every_request_is_answered (w : World) :
  (forall body, exists response task w',
      post_ssl body w = (Normal (response, task), w')
      /\ In (code response) [200; 400; 500])
  /\ (forall h, exists response w',
        get_ssl h w = (Normal response, w')
        /\ In (code response) [200; 404; 500])
  /\ (forall h, exists response w',
        get_ssl_recheck h w = (Normal response, w')
        /\ In (code response) [200; 404; 500]
        /\ json response <> DataUndefined)
  /\ (forall i body, exists response w',
        put_ssl i body w = (Normal response, w')
        /\ In (code response) [200; 500])
  /\ (forall i, exists response w',
        delete_ssl i w = (Normal response, w')
        /\ In (code response) [200; 500])
  /\ (exists response w',
        list_ssl w = (Normal response, w') /\ code response = 200)
  /\ (forall task, exists w', reconcile task w = (Normal tt, w')).
Proof.
  repeat split.
  - intros body. unfold post_ssl. js_unfold.
    destruct body as [|[hostname|]]; simpl.
    + eexists. eexists. eexists. split; [reflexivity|]. simpl. tauto.
    + destruct (String.eqb hostname ""); simpl.
      * eexists. eexists. eexists. split; [reflexivity|]. simpl. tauto.
      * destruct (post_custom_hostnames (authority w) (calls w) hostname); simpl;
          eexists; eexists; eexists; (split; [reflexivity|]); simpl; tauto.
    + eexists. eexists. eexists. split; [reflexivity|]. simpl. tauto.
  - intros h. unfold get_ssl. js_unfold.
    destruct (Sql.select_where_hostname h (db w)); simpl.
    + eexists. eexists. split; [reflexivity|]. simpl. tauto.
    + destruct (get_custom_hostnames (authority w) (calls w) h)
        as [[[|first rest]|]|error]; simpl;
        eexists; eexists; (split; [reflexivity|]); simpl; tauto.
  - intros h. unfold get_ssl_recheck. js_unfold.
    destruct (Sql.select_where_hostname h (db w)) as [record|]; simpl.
    + assert (Hfuel := fetchCloudflareStatus_terminates (id record) 3 w).
      destruct (fetchCloudflareStatus (id record) 3 w) as [[[u|]|e|] w1];
        simpl in *; try congruence;
        eexists; eexists; (split; [reflexivity|]); simpl;
        (split; [tauto | discriminate]).
    + eexists. eexists. split; [reflexivity|]. simpl.
      split; [tauto | discriminate].
  - intros i body. unfold put_ssl. js_unfold.
    destruct body as [|sslSettings]; simpl.
    + eexists. eexists. split; [reflexivity|]. simpl. tauto.
    + destruct (patch_custom_hostname (authority w) (calls w) i sslSettings); simpl;
        eexists; eexists; (split; [reflexivity|]); simpl; tauto.
  - intros i. unfold delete_ssl. js_unfold.
    destruct (delete_custom_hostname (authority w) (calls w) i); simpl;
      eexists; eexists; (split; [reflexivity|]); simpl; tauto.
  - eexists. eexists. split; reflexivity.
  - intros task. unfold reconcile. js_unfold.
    assert (Hfuel := fetchCloudflareStatus_terminates (task_id task) 3 w).
    destruct (fetchCloudflareStatus (task_id task) 3 w) as [[[u|]|e|] w1];
      simpl in *; try congruence; eexists; reflexivity.
Qed.

(** ** Whole schedules *)

Lemma put_ssl_rows_from (i : string) (body : RequestBody) (w : World) :
  rows_from (db w) (db (snd (put_ssl i body w))).
Proof.
  unfold put_ssl. js_unfold. destruct body as [|s]; simpl;
    [apply rows_from_refl|].
  destruct (patch_custom_hostname (authority w) (calls w) i s); simpl;
    [apply rows_from_update_status | apply rows_from_refl].
Qed.

Lemma step_rows_from (e : Event) (w : World) :
  is_create e = false -> rows_from (db w) (db (step e w)).
Proof.
  destruct e as [b|h|h|i s|i| |task|s|body|i body]; simpl; intros Hkind;
    try discriminate; try apply rows_from_refl; try apply put_ssl_rows_from.
  - unfold get_ssl. js_unfold.
    destruct (Sql.select_where_hostname h (db w)); simpl; [apply rows_from_refl|].
    destruct (get_custom_hostnames (authority w) (calls w) h) as [[[|? ?]|]|];
      simpl; apply rows_from_refl.
  - unfold get_ssl_recheck. js_unfold.
    destruct (Sql.select_where_hostname h (db w)) as [record|];
      [|apply rows_from_refl].
    destruct (fetchCloudflareStatus_frame (id record) 3 w) as [Hdb _].
    destruct (fetchCloudflareStatus (id record) 3 w) as [[[u|]|e|] w1];
      simpl in Hdb; simpl; rewrite ?Hdb; try apply rows_from_refl.
    apply rows_from_update_status_stamped.
  - unfold delete_ssl. js_unfold.
    destruct (delete_custom_hostname (authority w) (calls w) i); simpl;
      [apply rows_from_delete_where_id | apply rows_from_refl].
  - destruct (reconcile_effect task w) as [_ [Hdb|[s [now Hdb]]]]; rewrite Hdb;
      [apply rows_from_refl | apply rows_from_update_status_stamped].
Qed.

(** X14.  Only a create adds a row or decides an id, a hostname or a
    [created_at].  After any schedule without a create (reads, rechecks,
    settings updates with or without a body, deletes, listings, detached
    reconciliations, waits)
    each row of the table is one of the rows it started with, with the same
    id, hostname and [created_at]. *)
Theorem X14_only_create_adds_rows (schedule : list Event) :
  forall w,
    forallb (fun e => negb (is_create e)) schedule = true ->
    rows_from (db w) (db (run schedule w)).
Proof.
  induction schedule as [|e schedule IH]; intros w Hkinds; simpl.
  - apply rows_from_refl.
  - simpl in Hkinds. apply andb_true_iff in Hkinds. destruct Hkinds as [He Hrest].
    apply rows_from_trans with (db (step e w)).
    + apply step_rows_from. apply negb_true_iff. exact He.
    + apply IH. exact Hrest.
Qed.

(** A day in the life of [example.com] after its creation. *)
Lemma X14_witness :
  rows_from (db (Demo.created 1))
    (db (run [Read "example.org"; Recheck "example.com"; Wait 30;
              UpdateSettings "abc" "{ http2: off }";
              Reconcile (mkDetached "abc" "example.com"); ListAll;
              Recheck "example.org"; UpdateSettings "nowhere" "{}";
              PutSsl "abc" NoBody; PutSsl "abc" (JsonBody None)]
             (Demo.created 1)))
  /\ db (run [Read "example.org"; Recheck "example.com"; Wait 30;
              UpdateSettings "abc" "{ http2: off }";
              Reconcile (mkDetached "abc" "example.com"); ListAll;
              Recheck "example.org"; UpdateSettings "nowhere" "{}";
              PutSsl "abc" NoBody; PutSsl "abc" (JsonBody None)]
             (Demo.created 1))
     = [mkRow "abc" "example.com" "active" 100 130].
Proof.
  split; [|reflexivity].
  apply X14_only_create_adds_rows. reflexivity.
Defined.

(** X15.  The primary key and the unique index hold in every table the
    service can reach: starting from a table that satisfies them, after any
    schedule of requests, reconciliations and waits, two stored rows with the
    same id or the same hostname are the same row. *)
Theorem X15_keys_identify_rows (schedule : list Event) (w : World) :
  Sql.constraints (db w) ->
  forall a b,
    In a (db (run schedule w)) -> In b (db (run schedule w)) ->
    id a = id b \/ hostname a = hostname b ->
    a = b.
Proof.
  intros Hc a b Ha Hb Hsame.
  destruct (run_constraints schedule w Hc) as [Hids Hhosts].
  destruct Hsame as [Hid|Hhost].
  - apply (id_determines_row _ Hids); assumption.
  - apply (hostname_determines_row _ Hhosts); assumption.
Qed.

(** Two creates under changing ids, an update, a recheck and a delete. *)
Lemma X15_witness :
  let w := run [Create (Some "example.org"); Wait 10;
                UpdateSettings "xyz" "{}"; Recheck "example.com";
                Create (Some "example.com"); Delete "abc"; PostSsl NoBody]
               Samples.renumbered in
  db w = [mkRow "xyz" "example.com" "pending" 110 110]
  /\ forall a b, In a (db w) -> In b (db w) ->
                 id a = id b \/ hostname a = hostname b -> a = b.
Proof.
  intros w. split; [reflexivity|].
  apply (X15_keys_identify_rows _ Samples.renumbered).
  split; repeat constructor; simpl; tauto.
Defined.

(** ** Two writers for one row *)

Lemma recheck_first_attempt (h : string) (record : Row) (updated : CustomHostname)
    (w : World) :
  Sql.select_where_hostname h (db w) = Some record ->
  get_custom_hostname (authority w) (calls w) (id record) = Resolved updated ->
  get_ssl_recheck h w =
    (Normal (mkResponse 200 (DataResult updated)),
     mkWorld (Sql.update_status_stamped (result_status updated) (id record)
                (clock w) (db w))
             (clock w) (authority w) (S (calls w)) (console w)).
Proof.
  intros Hlocal Hres. unfold get_ssl_recheck. js_unfold. rewrite Hlocal.
  unfold fetchCloudflareStatus. simpl. js_unfold. rewrite Hres. reflexivity.
Qed.

Lemma reconcile_first_attempt (task : Detached) (updated : CustomHostname)
    (w : World) :
  get_custom_hostname (authority w) (calls w) (task_id task) = Resolved updated ->
  reconcile task w =
    (Normal tt,
     mkWorld (Sql.update_status_stamped (result_status updated) (task_id task)
                (clock w) (db w))
             (clock w) (authority w) (S (calls w))
             (console w ++ [Log (task_hostname task) (result_status updated)])%list).
Proof.
  intros Hres. unfold reconcile. js_unfold.
  unfold fetchCloudflareStatus. simpl. js_unfold. rewrite Hres. reflexivity.
Qed.

(** X16.  Last write wins.  A recheck and a detached reconciliation for the
    same row, each answered at its first attempt, with time passing in
    between: in either order the row ends with the status and the timestamp
    of the one that ran second, and with its [created_at] unchanged. *)
Theorem X16_last_write_wins
    (h logged_as : string) (record : Row) (first second : CustomHostname)
    (seconds : Z) (w : World) :
  Sql.select_where_hostname h (db w) = Some record ->
  get_custom_hostname (authority w) (calls w) (id record) = Resolved first ->
  get_custom_hostname (authority w) (S (calls w)) (id record) = Resolved second ->
  let task := mkDetached (id record) logged_as in
  let settled :=
    Some (mkRow (id record) (hostname record) (result_status second)
                (created_at record) (clock w + seconds)) in
  Sql.select_where_hostname h
    (db (run [Recheck h; Wait seconds; Reconcile task] w)) = settled
  /\ Sql.select_where_hostname h
       (db (run [Reconcile task; Wait seconds; Recheck h] w)) = settled.
Proof.
  intros Hlocal Hfirst Hsecond task settled. subst task settled. simpl. split.
  - rewrite (recheck_first_attempt h record first w Hlocal Hfirst). simpl.
    rewrite reconcile_first_attempt with (updated := second); [|exact Hsecond].
    simpl.
    rewrite !select_where_hostname_update_status_stamped, Hlocal. simpl.
    rewrite String.eqb_refl. simpl. rewrite String.eqb_refl. reflexivity.
  - rewrite reconcile_first_attempt with (updated := first); [|exact Hfirst].
    simpl.
    rewrite recheck_first_attempt
      with (record := mkRow (id record) (hostname record) (result_status first)
                            (created_at record) (clock w))
           (updated := second).
    + simpl.
      rewrite !select_where_hostname_update_status_stamped, Hlocal. simpl.
      rewrite String.eqb_refl. simpl. rewrite String.eqb_refl. reflexivity.
    + simpl. rewrite select_where_hostname_update_status_stamped, Hlocal. simpl.
      rewrite String.eqb_refl. reflexivity.
    + simpl. exact Hsecond.
Qed.

(** The row of [example.com] rechecked and reconciled five seconds apart. *)
Lemma X16_witness :
  let task := mkDetached "abc" "example.com" in
  Sql.select_where_hostname "example.com"
    (db (run [Recheck "example.com"; Wait 5; Reconcile task] (Demo.created 0)))
  = Some (mkRow "abc" "example.com" "active" 100 105)
  /\ Sql.select_where_hostname "example.com"
       (db (run [Reconcile task; Wait 5; Recheck "example.com"] (Demo.created 0)))
     = Some (mkRow "abc" "example.com" "active" 100 105).
Proof.
  apply (X16_last_write_wins "example.com" "example.com"
           (mkRow "abc" "example.com" "pending" 100 100)
           (mkCustomHostname "abc" "example.com" "active" "{}")
           (mkCustomHostname "abc" "example.com" "active" "{}")
           5 (Demo.created 0)); reflexivity.
Defined.

(** ** The hostname that is stored *)

(** X17.  The row of a create is stored under the hostname the authority
    returns, not under the one that was requested.  When the two differ and
    the requested spelling was not stored before, it is not stored after the
    create either: a read of the requested spelling misses the table and goes
    to the authority, while the row is found under the authority's
    spelling. *)
Theorem X17_row_is_stored_under_the_returned_hostname
    (requested : string) (ssl : CustomHostname) (w : World) :
  requested <> "" ->
  post_custom_hostnames (authority w) (calls w) requested = Resolved ssl ->
  result_hostname ssl <> requested ->
  Sql.select_where_hostname requested (db w) = None ->
  let w1 := snd (post_ssl (JsonBody (Some requested)) w) in
  Sql.select_where_hostname requested (db w1) = None
  /\ Sql.select_where_hostname (result_hostname ssl) (db w1)
     = Some (mkRow (result_id ssl) (result_hostname ssl) "pending"
                   (clock w) (clock w))
  /\ exists response w2,
       get_ssl requested w1 = (Normal response, w2)
       /\ calls w2 = S (S (calls w))
       /\ forall row, json response <> DataRow row.
Proof.
  intros Hne Hres Hdiffer Hbefore w1. subst w1.
  rewrite (post_ssl_resolved requested ssl w Hne Hres). simpl.
  assert (Hafter : Sql.select_where_hostname requested
                     (Sql.insert_or_replace (result_id ssl) (result_hostname ssl)
                        "pending" (clock w) (db w)) = None).
  { match goal with
    | |- ?lookup = None => destruct lookup as [r|] eqn:Hr; [exfalso | reflexivity]
    end.
    destruct (select_where_hostname_in _ _ _ Hr) as [Hin Hhost].
    apply in_insert_or_replace in Hin. destruct Hin as [Heq|[Hin _]].
    - subst r. simpl in Hhost. contradiction.
    - exact (select_where_hostname_none requested (db w) Hbefore r Hin Hhost). }
  split; [exact Hafter|]. split.
  - apply select_where_hostname_insert_or_replace.
  - unfold get_ssl. js_unfold. simpl. rewrite Hafter. simpl.
    destruct (get_custom_hostnames (authority w) (S (calls w)) requested)
      as [[[|first rest]|]|error]; simpl;
      eexists; eexists; (split; [reflexivity|]); simpl;
      (split; [reflexivity | discriminate]).
Qed.

(** [Example.COM] is requested and stored as [example.com]. *)
Lemma X17_witness :
  let w := mkWorld [] 100 Samples.normalizing 0 [] in
  let w1 := snd (post_ssl (JsonBody (Some "Example.COM")) w) in
  Sql.select_where_hostname "Example.COM" (db w1) = None
  /\ Sql.select_where_hostname "example.com" (db w1)
     = Some (mkRow "abc" "example.com" "pending" 100 100)
  /\ fst (get_ssl "Example.COM" w1) = Normal (mkResponse 404 (Failure "Not found")).
Proof.
  intros w w1.
  destruct (X17_row_is_stored_under_the_returned_hostname "Example.COM"
              (mkCustomHostname "abc" "example.com" "initializing" "{}") w)
    as [Hmiss [Hhit _]]; try discriminate; try reflexivity.
  split; [exact Hmiss|]. split; [exact Hhit | reflexivity].
Defined.
